(** * iRail liveboard collectors: a shallow embedding

    Two Python programs poll the iRail liveboard API for a fixed list of
    stations and insert one row per departure into the PostgreSQL table
    [departures_raw]:

    - [scripts/github_collector.py]: [ensure_schema], [collect_station],
      [main] (module [Script] below);
    - [dags/collector.py]: [fetch_and_store_liveboard] (module [Dag]).

    The embedding has three layers.  [Py] holds the Python values and the
    built-in operations the collectors call ([dict.get], [int], [str.replace],
    truthiness, iteration), with exceptions as an error result.  [Pg] holds
    the table and the transaction of one psycopg2 connection.  [Script] and
    [Dag] are the two programs, written with explicit passing of the world
    (database, number of connections opened so far, logging calls). *)

From Stdlib Require Import ZArith List String Ascii Bool Lia DecimalString.
Import ListNotations.
Set Warnings "-register-all".
Open Scope string_scope.
Open Scope Z_scope.

(* ===================================================================== *)
(** ** Python values and built-ins *)
(* ===================================================================== *)

Module Py.

(** What [response.json()] returns.  Number literals are integers here; a
    literal with a fraction or exponent (a Python float) is outside the
    model.  A string is a sequence of bytes: a character outside ASCII
    takes several positions.  A parsed object lists a key once. *)
Inductive json : Type :=
| JNull
| JBool (b : bool)
| JInt (n : Z)
| JStr (s : string)
| JArr (xs : list json)
| JObj (kvs : list (string * json)).

(** The exception classes that reach a handler of the collectors.
    [UndefinedTable] is psycopg2's subclass of [ProgrammingError] for a
    relation that does not exist; none of the handlers tells the two
    apart. *)
Inductive exn : Type :=
| AttributeError
| TypeError
| ValueError
| OverflowError
| OSError
| RequestException
| OperationalError
| ProgrammingError
| UndefinedTable
| DataError
| IntegrityError
| InFailedSqlTransaction.

Inductive result (A : Type) : Type :=
| Ok (a : A)
| Raise (e : exn).
Arguments Ok {A} a.
Arguments Raise {A} e.

Definition bind {A B : Type} (r : result A) (k : A -> result B) : result B :=
  match r with
  | Ok a => k a
  | Raise e => Raise e
  end.

Definition is_ok {A : Type} (r : result A) : bool :=
  match r with Ok _ => true | Raise _ => false end.

(** [psycopg2.IntegrityError] against every other [Exception]. *)
Definition is_integrity_error (e : exn) : bool :=
  match e with IntegrityError => true | _ => false end.

(** Lookup in a parsed object. *)
Fixpoint assoc (k : string) (kvs : list (string * json)) : option json :=
  match kvs with
  | [] => None
  | (k', v) :: rest => if String.eqb k k' then Some v else assoc k rest
  end.

(** [d.get(k, default)]: only a dict has [get]. *)
Definition dict_get (d : json) (k : string) (default : json) : result json :=
  match d with
  | JObj kvs => Ok (match assoc k kvs with Some v => v | None => default end)
  | _ => Raise AttributeError
  end.

(** Truth value of an object, as tested by [if not departures]. *)
Definition truthy (v : json) : bool :=
  match v with
  | JNull => false
  | JBool b => b
  | JInt n => negb (n =? 0)
  | JStr s => negb (String.eqb s "")
  | JArr xs => match xs with [] => false | _ :: _ => true end
  | JObj kvs => match kvs with [] => false | _ :: _ => true end
  end.

Fixpoint chars (s : string) : list json :=
  match s with
  | EmptyString => []
  | String c s' => JStr (String c EmptyString) :: chars s'
  end.

(** The items [for dep in v] runs over: the elements of a list, the
    characters of a string, the keys of a dict; other objects are not
    iterable. *)
Definition py_iter (v : json) : result (list json) :=
  match v with
  | JArr xs => Ok xs
  | JStr s => Ok (chars s)
  | JObj kvs => Ok (map (fun kv => JStr (fst kv)) kvs)
  | _ => Raise TypeError
  end.

(** *** [int(x)] *)

(** The blanks [int] strips from an ASCII string: tab to carriage
    return, and the space. *)
Definition is_space (c : ascii) : bool :=
  let n := nat_of_ascii c in
  (((9 <=? n) && (n <=? 13)) || (n =? 32))%nat.

(** [sys.int_info.default_max_str_digits]: a literal of more digits is
    refused. *)
Definition max_str_digits : N := 4300.

Definition digit_of (c : ascii) : option Z :=
  let n := nat_of_ascii c in
  if ((48 <=? n) && (n <=? 57))%nat then Some (Z.of_nat n - 48) else None.

Fixpoint all_space (s : string) : bool :=
  match s with
  | EmptyString => true
  | String c s' => is_space c && all_space s'
  end.

Fixpoint skip_space (s : string) : string :=
  match s with
  | EmptyString => EmptyString
  | String c s' => if is_space c then skip_space s' else s
  end.

(** Decimal digits, single underscores between digits, then only
    whitespace.  [digits] counts the digits read; [after_digit] says the
    previous character was a digit. *)
Fixpoint parse_digits (acc : Z) (digits : N) (after_digit : bool) (s : string)
  : option Z :=
  match s with
  | EmptyString =>
      if after_digit && (digits <=? max_str_digits)%N then Some acc else None
  | String c s' =>
      match digit_of c with
      | Some d => parse_digits (10 * acc + d) (N.succ digits) true s'
      | None =>
          if Ascii.eqb c "_"
          then (if after_digit then parse_digits acc digits false s' else None)
          else if after_digit && all_space s && (digits <=? max_str_digits)%N
               then Some acc else None
      end
  end.

(** [int(s)] for a string: surrounding whitespace, an optional sign, a
    base-10 literal of at most [max_str_digits] digits.  The digits and
    blanks are the ASCII ones: a string that spells a number in other
    digits, or pads it with blanks outside ASCII, is not taken here. *)
Definition int_of_string (s : string) : option Z :=
  match skip_space s with
  | String "-" s' => option_map Z.opp (parse_digits 0 0 false s')
  | String "+" s' => parse_digits 0 0 false s'
  | s' => parse_digits 0 0 false s'
  end.

Definition py_int (v : json) : result Z :=
  match v with
  | JInt n => Ok n
  | JBool b => Ok (if b then 1 else 0)
  | JStr s => match int_of_string s with Some n => Ok n | None => Raise ValueError end
  | _ => Raise TypeError
  end.

(** *** [s.replace(old, '')] *)

(** Scan left to right; where [old] matches, drop it and go on after it.
    [skip] counts the characters of a match still to be dropped. *)
Fixpoint remove_from (old : string) (skip : nat) (s : string) : string :=
  match s with
  | EmptyString => EmptyString
  | String c s' =>
      match skip with
      | S k => remove_from old k s'
      | O =>
          if String.prefix old s
          then remove_from old (Nat.pred (String.length old)) s'
          else String c (remove_from old O s')
      end
  end.

(** [old] is not empty at the one call site. *)
Definition str_remove (old s : string) : string := remove_from old O s.

(** [v.replace(old, '')]: only a string has [replace]. *)
Definition py_replace (v : json) (old : string) : result string :=
  match v with
  | JStr s => Ok (str_remove old s)
  | _ => Raise AttributeError
  end.

(** *** [datetime.fromtimestamp] *)

(** The timestamps [datetime.fromtimestamp] takes, with the collector's
    clock on UTC: from 0001-01-02 00:00:00 (the call also looks one day
    back, which must still be in year 1) to 9999-12-31 23:59:59. *)
Definition datetime_min : Z := -62135510400.
Definition datetime_max : Z := 253402300799.

(** The timestamps the C library's [localtime] takes: the year must fit
    its [int] field. *)
Definition localtime_min : Z := -67768040609740800.
Definition localtime_max : Z := 67768036191676799.

(** A [datetime] is kept as its epoch seconds.  Out of range the call
    raises: [OverflowError] when the number does not fit [time_t],
    [OSError] when [localtime] refuses it, [ValueError] when the year is
    out of 1..9999. *)
Definition fromtimestamp (t : Z) : result Z :=
  if (datetime_min <=? t) && (t <=? datetime_max) then Ok t
  else if negb ((- 2 ^ 63 <=? t) && (t <? 2 ^ 63)) then Raise OverflowError
  else if negb ((localtime_min <=? t) && (t <=? localtime_max)) then Raise OSError
  else Raise ValueError.

(** *** [s.replace(old, new)] and [s.lower()] *)

(** As [remove_from], with [new] put where [old] matched. *)
Fixpoint replace_from (old new : string) (skip : nat) (s : string) : string :=
  match s with
  | EmptyString => EmptyString
  | String c s' =>
      match skip with
      | S k => replace_from old new k s'
      | O =>
          if String.prefix old s
          then new ++ replace_from old new (Nat.pred (String.length old)) s'
          else String c (replace_from old new O s')
      end
  end.

(** [old] is not empty at the call sites. *)
Definition str_replace (old new s : string) : string := replace_from old new O s.

Definition is_upper (c : ascii) : bool :=
  let n := nat_of_ascii c in ((65 <=? n) && (n <=? 90))%nat.

Definition to_lower (c : ascii) : ascii :=
  if is_upper c then ascii_of_nat (nat_of_ascii c + 32) else c.

(** [s.lower()] on the letters A to Z.  [str.lower] also lowers letters
    outside ASCII; their bytes stay as they are here. *)
Fixpoint lower (s : string) : string :=
  match s with
  | EmptyString => EmptyString
  | String c s' => String (to_lower c) (lower s')
  end.

End Py.

Import Py.

Declare Scope py_scope.
Delimit Scope py_scope with py.
Notation "x <- c ;; k" := (Py.bind c (fun x => k))
  (at level 61, c at next level, right associativity) : py_scope.
Open Scope py_scope.

(* ===================================================================== *)
(** ** The store: table [departures_raw] and one connection's transaction *)
(* ===================================================================== *)

Module Pg.

(** The tuple of parameters of the INSERT statement, as the collectors
    build it: what [dep.get] returned goes to the driver as it is. *)
Record params : Type := {
  p_station : json;
  p_train_id : string;
  p_vehicle : json;
  p_platform : json;
  p_time : Z;
  p_delay : Z;
  p_cancelled : bool;
  p_destination : json;
  p_collected_at : Z
}.

(** A stored row.  [None] is SQL NULL.  The columns [id] (serial) and
    [created_at] (default now) are assigned by the server and read by
    nothing in the collectors; they are left out. *)
Record row : Type := {
  station : string;
  train_id : string;
  vehicle : option string;
  platform : option string;
  scheduled_time : Z;
  delay_seconds : Z;
  cancelled : bool;
  destination : option string;
  collected_at : Z
}.

(** The table.  [ensure_schema] declares the columns below and two plain
    indexes; the DAG collector takes the table as it finds it.  The one
    thing left open about a table that exists already is whether it
    declares (station, train_id, scheduled_time) unique. *)
Record table : Type := {
  natural_key_unique : bool;
  rows : list row
}.

(** [None]: the table does not exist. *)
Definition database : Type := option table.

(** The open transaction of a connection: rows inserted and not yet
    committed, and whether a statement failed since the transaction
    began (PostgreSQL then refuses every statement until a rollback). *)
Record txn : Type := {
  pending : list row;
  aborted : bool
}.

Definition begin : txn := {| pending := []; aborted := false |}.

Definition failed (x : txn) : txn := {| pending := pending x; aborted := true |}.

Fixpoint has_nul (s : string) : bool :=
  match s with
  | EmptyString => false
  | String c s' => Ascii.eqb c zero || has_nul s'
  end.

(** Client side, a [str] parameter: the driver quotes it, and refuses one
    that holds a NUL character. *)
Definition adapt_str (s : string) : result string :=
  if has_nul s then Raise ValueError else Ok s.

Definition decimal (n : Z) : string := NilZero.string_of_int (Z.to_int n).

(** Client side, a parameter bound for a text column.  A string goes as
    text and [None] as NULL; a number or a boolean goes as its literal,
    which the server turns into text on assignment; a dict cannot be
    adapted.  A list would reach the server as an ARRAY expression; the
    liveboard sends none in these fields, and the model lets the driver
    refuse it like a dict. *)
Definition adapt_text (v : json) : result (option string) :=
  match v with
  | JStr s => s' <- adapt_str s ;; Ok (Some s')
  | JNull => Ok None
  | JInt n => Ok (Some (decimal n))
  | JBool b => Ok (Some (if b then "true" else "false"))
  | JArr _ => Raise ProgrammingError
  | JObj _ => Raise ProgrammingError
  end.

Fixpoint all_blank (s : string) : bool :=
  match s with
  | EmptyString => true
  | String c s' => Ascii.eqb c " " && all_blank s'
  end.

(** A byte that continues a character of several bytes (UTF-8). *)
Definition is_continuation (c : ascii) : bool :=
  let n := nat_of_ascii c in ((128 <=? n) && (n <=? 191))%nat.

(** The number of characters of a string. *)
Fixpoint char_length (s : string) : nat :=
  match s with
  | EmptyString => O
  | String c s' => ((if is_continuation c then 0 else 1) + char_length s')%nat
  end.

(** The first [n] characters of a string, and what follows them. *)
Fixpoint take_chars (n : nat) (s : string) : string :=
  match s with
  | EmptyString => EmptyString
  | String c s' =>
      if is_continuation c then String c (take_chars n s')
      else match n with
           | O => EmptyString
           | S k => String c (take_chars k s')
           end
  end.

Fixpoint drop_chars (n : nat) (s : string) : string :=
  match s with
  | EmptyString => EmptyString
  | String c s' =>
      if is_continuation c then drop_chars n s'
      else match n with
           | O => s
           | S k => drop_chars k s'
           end
  end.

(** Assignment to VARCHAR(n): a string of more than [n] characters is an
    error unless the excess is blanks, which are cut. *)
Definition varchar (n : nat) (v : option string) : result (option string) :=
  match v with
  | None => Ok None
  | Some s =>
      if (char_length s <=? n)%nat then Ok (Some s)
      else if all_blank (drop_chars n s)
           then Ok (Some (take_chars n s))
           else Raise DataError
  end.

(** [to_timestamp] takes the seconds of 4714-11-24 BC up to, not
    including, 294277-01-01. *)
Definition to_timestamp (t : Z) : result Z :=
  if (-210866803200 <=? t) && (t <? 9224318016000) then Ok t else Raise DataError.

(** Assignment to INT. *)
Definition int4 (n : Z) : result Z :=
  if (- 2 ^ 31 <=? n) && (n <? 2 ^ 31) then Ok n else Raise DataError.

Definition not_null (v : option string) : result string :=
  match v with
  | Some s => Ok s
  | None => Raise IntegrityError
  end.

(** Server side: the values are coerced to the column types, then the
    NOT NULL columns are checked. *)
Definition coerce (p : params) (st : option string) (ti : string)
    (ve pl de : option string) : result row :=
  st' <- varchar 100 st ;;
  ti' <- varchar 50 (Some ti) ;;
  ve' <- varchar 50 ve ;;
  pl' <- varchar 10 pl ;;
  tm' <- to_timestamp (p_time p) ;;
  dl' <- int4 (p_delay p) ;;
  de' <- varchar 100 de ;;
  s <- not_null st' ;;
  t <- not_null ti' ;;
  Ok {| station := s; train_id := t; vehicle := ve'; platform := pl';
        scheduled_time := tm'; delay_seconds := dl';
        cancelled := p_cancelled p; destination := de';
        collected_at := p_collected_at p |}.

(** The natural key of a departure. *)
Definition same_key (a b : row) : bool :=
  String.eqb (station a) (station b)
  && String.eqb (train_id a) (train_id b)
  && (scheduled_time a =? scheduled_time b).

(** What the statement sees: the committed rows and its own transaction's. *)
Definition visible (t : table) (x : txn) : list row := rows t ++ pending x.

(** The text parameters of the tuple after the driver adapted them, in
    the order of the tuple. *)
Definition adapt (p : params)
  : result (option string * string * option string * option string * option string) :=
  st <- adapt_text (p_station p) ;;
  ti <- adapt_str (p_train_id p) ;;
  ve <- adapt_text (p_vehicle p) ;;
  pl <- adapt_text (p_platform p) ;;
  de <- adapt_text (p_destination p) ;;
  Ok (st, ti, ve, pl, de).

(** [cursor.execute("INSERT INTO departures_raw ...", params)].  The outcome
    and the transaction after it.  A parameter the driver refuses never
    reaches the server: the transaction stays as it was. *)
Definition execute_insert (d : database) (x : txn) (p : params) : result unit * txn :=
  match adapt p with
  | Raise e => (Raise e, x)
  | Ok (st, ti, ve, pl, de) =>
      if aborted x then (Raise InFailedSqlTransaction, x)
      else
        match d with
        | None => (Raise UndefinedTable, failed x)
        | Some t =>
            match coerce p st ti ve pl de with
            | Raise e => (Raise e, failed x)
            | Ok r =>
                if natural_key_unique t && existsb (same_key r) (visible t x)
                then (Raise IntegrityError, failed x)
                else (Ok tt, {| pending := pending x ++ [r]; aborted := false |})
            end
        end
  end.

(** [conn.rollback()]: the whole open transaction is undone. *)
Definition rollback (x : txn) : txn := begin.

(** [conn.commit()].  In a failed transaction COMMIT ends it as a rollback. *)
Definition commit (d : database) (x : txn) : database :=
  match d with
  | None => None
  | Some t =>
      if aborted x then Some t
      else Some {| natural_key_unique := natural_key_unique t;
                   rows := rows t ++ pending x |}
  end.

(** [CREATE TABLE IF NOT EXISTS departures_raw (...)], no UNIQUE in it, and
    two [CREATE INDEX IF NOT EXISTS] of plain indexes. *)
Definition create_if_not_exists (d : database) : database :=
  match d with
  | Some t => Some t
  | None => Some {| natural_key_unique := false; rows := [] |}
  end.

End Pg.

Import Pg.

(* ===================================================================== *)
(** ** The world around a collector *)
(* ===================================================================== *)

Inductive level : Type := DEBUG | INFO | WARNING | ERROR.

(** The messages of the logging calls, one constructor per format string. *)
Inductive message : Type :=
| MStarted
| MRule
| MSchemaReady
| MFetching (station : string)
| MNoDepartures (station : string)
| MSkipping (e : exn)
| MStationDone (station_name : json) (inserted : Z) (total : Z)
| MStationError (station : string) (e : exn)
| MApiFailed (station : string) (e : exn)
| MUnexpected (station : string) (e : exn)
| MTotal (total : Z)
| MDatabase (records : Z) (stations : Z)
| MLastCollection (t : option Z)
| MCollectionFailed (e : exn).

Definition entry : Type := (level * message)%type.

(** What a run changes: the database, how many connections were opened
    so far, the logging calls made, and the values pushed to XCom. *)
Record world : Type := {
  db : database;
  connects : nat;
  log : list entry;
  xcom : list (string * Z)
}.

(** What a run is given: the outcome of the HTTP request for a station
    ([requests.get], [raise_for_status] and [response.json()] together) and
    the outcome of the n-th attempt to open a database connection. *)
Record env : Type := {
  http_get : string -> result json;
  db_connect : nat -> result unit
}.

Definition logging (l : level) (m : message) (w : world) : world :=
  {| db := db w; connects := connects w; log := log w ++ [(l, m)]; xcom := xcom w |}.

Definition set_db (d : database) (w : world) : world :=
  {| db := d; connects := connects w; log := log w; xcom := xcom w |}.

Definition add_log (lg : list entry) (w : world) : world :=
  {| db := db w; connects := connects w; log := log w ++ lg; xcom := xcom w |}.

Definition xcom_push (k : string) (v : Z) (w : world) : world :=
  {| db := db w; connects := connects w; log := log w; xcom := xcom w ++ [(k, v)] |}.

(** Opening a connection: [psycopg2.connect(...)] in the script,
    [PostgresHook(...).get_conn()] in the DAG. *)
Definition get_db_connection (E : env) (w : world) : result unit * world :=
  (db_connect E (connects w),
   {| db := db w; connects := S (connects w); log := log w; xcom := xcom w |}).

(* ===================================================================== *)
(** ** What the two collectors have in common, word for word *)
(* ===================================================================== *)

(** The carrier prefix. *)
Definition carrier : string := "BE.NMBS.".

(** [data.get('departures', {}).get('departure', [])]. *)
Definition raw_departures (data : json) : result json :=
  d <- dict_get data "departures" (JObj []) ;;
  dict_get d "departure" (JArr []).

(** [int(data.get('timestamp', 0))]. *)
Definition response_epoch (data : json) : result Z :=
  ts <- dict_get data "timestamp" (JInt 0) ;;
  py_int ts.

(** [data.get('stationinfo', {}).get('standardname', station)]. *)
Definition display_name (station : string) (data : json) : result json :=
  si <- dict_get data "stationinfo" (JObj []) ;;
  dict_get si "standardname" (JStr station).

(** The three assignments after [data = response.json()]:
    [departures], [collected_at], [station_name]. *)
Definition parse_response (station : string) (data : json) : result (json * Z * json) :=
  departures <- raw_departures data ;;
  n <- response_epoch data ;;
  collected_at <- fromtimestamp n ;;
  station_name <- display_name station data ;;
  Ok (departures, collected_at, station_name).

(** [dep.get('vehicle', '').replace('BE.NMBS.', '')]. *)
Definition train_id_of (dep : json) : result string :=
  v <- dict_get dep "vehicle" (JStr "") ;;
  py_replace v carrier.

(** The parameter tuple of the INSERT, evaluated left to right. *)
Definition insert_params (station_name : json) (collected_at : Z) (dep : json)
  : result params :=
  tid <- train_id_of dep ;;
  ve <- dict_get dep "vehicle" (JStr "") ;;
  pl <- dict_get dep "platform" (JStr "") ;;
  t0 <- dict_get dep "time" (JInt 0) ;;
  t <- py_int t0 ;;
  d0 <- dict_get dep "delay" (JInt 0) ;;
  dl <- py_int d0 ;;
  c0 <- dict_get dep "canceled" (JInt 0) ;;
  c <- py_int c0 ;;
  de <- dict_get dep "station" (JStr "") ;;
  Ok {| p_station := station_name; p_train_id := tid; p_vehicle := ve;
        p_platform := pl; p_time := t; p_delay := dl;
        p_cancelled := (c =? 1); p_destination := de;
        p_collected_at := collected_at |}.

(** The body of the inner [try]: build the tuple, run the INSERT. *)
Definition try_insert (d : database) (station_name : json) (collected_at : Z)
    (dep : json) (x : txn) : result unit * txn :=
  match insert_params station_name collected_at dep with
  | Raise e => (Raise e, x)
  | Ok p => execute_insert d x p
  end.

(** What a station's collection reports.  The source returns [inserted]
    alone; [attempted] is a ghost field, the number of departures the
    insert loop ran over ([len(departures)] in the closing log line). *)
Record CollectionResult : Type := {
  cr_station : string;
  inserted : Z;
  attempted : nat
}.

Definition total_inserted (rs : list CollectionResult) : Z :=
  fold_right (fun r acc => inserted r + acc) 0 rs.

(* ===================================================================== *)
(** ** scripts/github_collector.py *)
(* ===================================================================== *)

Module Script.

Definition STATIONS : list string :=
  ["Brussels-Central"; "Antwerp-Central"; "Ghent-Sint-Pieters"; "Liège-Guillemins"].

Definition ensure_schema (E : env) (w : world) : result unit * world :=
  match get_db_connection E w with
  | (Raise e, w1) => (Raise e, w1)
  | (Ok _, w1) =>
      let w2 := set_db (create_if_not_exists (db w1)) w1 in
      (Ok tt, logging INFO MSchemaReady w2)
  end.

(** The [for dep in departures] loop.  Both handlers roll the connection
    back; the second also makes a debug logging call. *)
Fixpoint insert_loop (d : database) (station_name : json) (collected_at : Z)
    (deps : list json) (x : txn) (inserted : Z) (lg : list entry)
  : txn * Z * list entry :=
  match deps with
  | [] => (x, inserted, lg)
  | dep :: rest =>
      match try_insert d station_name collected_at dep x with
      | (Ok _, x') =>
          insert_loop d station_name collected_at rest x' (inserted + 1) lg
      | (Raise e, x') =>
          if is_integrity_error e
          then insert_loop d station_name collected_at rest (rollback x') inserted lg
          else insert_loop d station_name collected_at rest (rollback x') inserted
                 (lg ++ [(DEBUG, MSkipping e)])
      end
  end.

(** The body of the outer [try] of [collect_station]: the value returned
    or the exception raised, and the world at that point.  The loop runs
    over as many items as [len(departures)] counts. *)
Definition collect_body (E : env) (station : string) (w : world)
  : result CollectionResult * world :=
  match (data <- http_get E station ;; parse_response station data) with
  | Raise e => (Raise e, w)
  | Ok (departures, collected_at, station_name) =>
      if negb (truthy departures)
      then (Ok {| cr_station := station; inserted := 0; attempted := 0 |},
            logging WARNING (MNoDepartures station) w)
      else
        match get_db_connection E w with
        | (Raise e, w1) => (Raise e, w1)
        | (Ok _, w1) =>
            match py_iter departures with
            | Raise e => (Raise e, w1)
            | Ok deps =>
                let '(x, n, lg) :=
                  insert_loop (db w1) station_name collected_at deps begin 0 [] in
                let w2 := set_db (commit (db w1) x) (add_log lg w1) in
                (Ok {| cr_station := station; inserted := n;
                       attempted := List.length deps |},
                 logging INFO
                   (MStationDone station_name n (Z.of_nat (List.length deps))) w2)
            end
        end
  end.

Definition collect_station (E : env) (station : string) (w : world)
  : CollectionResult * world :=
  match collect_body E station w with
  | (Ok r, w') => (r, w')
  | (Raise e, w') =>
      ({| cr_station := station; inserted := 0; attempted := 0 |},
       logging ERROR (MStationError station e) w')
  end.

(** [total = 0; for station in STATIONS: total += collect_station(station)].
    The list of per-station results is kept beside the running total. *)
Fixpoint collect_all (E : env) (stations : list string) (total : Z)
    (done : list CollectionResult) (w : world)
  : Z * list CollectionResult * world :=
  match stations with
  | [] => (total, done, w)
  | station :: rest =>
      let '(r, w') := collect_station E station w in
      collect_all E rest (total + inserted r) (done ++ [r]) w'
  end.

Fixpoint count_distinct (seen : list string) (l : list string) : Z :=
  match l with
  | [] => 0
  | s :: rest =>
      if existsb (String.eqb s) seen then count_distinct seen rest
      else 1 + count_distinct (s :: seen) rest
  end.

Definition max_collected (rs : list row) : option Z :=
  fold_right (fun r acc =>
                match acc with
                | None => Some (collected_at r)
                | Some m => Some (Z.max (collected_at r) m)
                end) None rs.

(** [SELECT COUNT( * ), COUNT(DISTINCT station), MAX(collected_at)]. *)
Definition select_stats (d : database) : result (Z * Z * option Z) :=
  match d with
  | None => Raise ProgrammingError
  | Some t =>
      Ok (Z.of_nat (List.length (rows t)),
          count_distinct [] (map station (rows t)),
          max_collected (rows t))
  end.

(** The statistics block at the end of [main]. *)
Definition report_stats (E : env) (w : world) : result unit * world :=
  match get_db_connection E w with
  | (Raise e, w1) => (Raise e, w1)
  | (Ok _, w1) =>
      match select_stats (db w1) with
      | Raise e => (Raise e, w1)
      | Ok (n, s, m) =>
          if negb (n =? 0)
          then (Ok tt, logging INFO (MLastCollection m)
                         (logging INFO (MDatabase n s) w1))
          else (Ok tt, w1)
      end
  end.

(** [main]: the exit code, the per-station results of the loop (empty
    when the loop was not reached) and the world after it. *)
Definition main (E : env) (w : world) : Z * list CollectionResult * world :=
  let w0 := logging INFO MRule (logging INFO MStarted w) in
  match ensure_schema E w0 with
  | (Raise e, w1) => (1, [], logging ERROR (MCollectionFailed e) w1)
  | (Ok _, w1) =>
      let '(total, done, w2) := collect_all E STATIONS 0 [] w1 in
      let w3 := logging INFO (MTotal total) (logging INFO MRule w2) in
      match report_stats E w3 with
      | (Raise e, w4) => (1, done, logging ERROR (MCollectionFailed e) w4)
      | (Ok _, w4) => (0, done, w4)
      end
  end.

End Script.

(* ===================================================================== *)
(** ** dags/collector.py *)
(* ===================================================================== *)

Module Dag.

Definition STATIONS : list string :=
  ["Brussels-Central"; "Antwerp-Central"; "Ghent-Sint-Pieters"; "Liège-Guillemins"].

(** The [for dep in departures] loop.  The one handler makes a debug
    logging call and goes on; the connection is left as it is. *)
Fixpoint insert_loop (d : database) (station_name : json) (collected_at : Z)
    (deps : list json) (x : txn) (inserted_count : Z) (lg : list entry)
  : txn * Z * list entry :=
  match deps with
  | [] => (x, inserted_count, lg)
  | dep :: rest =>
      match try_insert d station_name collected_at dep x with
      | (Ok _, x') =>
          insert_loop d station_name collected_at rest x' (inserted_count + 1) lg
      | (Raise e, x') =>
          insert_loop d station_name collected_at rest x' inserted_count
            (lg ++ [(DEBUG, MSkipping e)])
      end
  end.

(** The body of the outer [try]. *)
Definition fetch_body (E : env) (station : string) (w : world)
  : result CollectionResult * world :=
  match (data <- http_get E station ;; parse_response station data) with
  | Raise e => (Raise e, w)
  | Ok (departures, collected_at, station_name) =>
      if negb (truthy departures)
      then (Ok {| cr_station := station; inserted := 0; attempted := 0 |},
            logging WARNING (MNoDepartures station) w)
      else
        match get_db_connection E w with
        | (Raise e, w1) => (Raise e, w1)
        | (Ok _, w1) =>
            match py_iter departures with
            | Raise e => (Raise e, w1)
            | Ok deps =>
                let '(x, n, lg) :=
                  insert_loop (db w1) station_name collected_at deps begin 0 [] in
                let w2 := set_db (commit (db w1) x) (add_log lg w1) in
                let w3 := logging INFO
                   (MStationDone station_name n (Z.of_nat (List.length deps))) w2 in
                (Ok {| cr_station := station; inserted := n;
                       attempted := List.length deps |},
                 xcom_push "departures_count" n w3)
            end
        end
  end.

(** Both handlers log an error and raise again: the task fails. *)
Definition fetch_and_store_liveboard (E : env) (station : string) (w : world)
  : result CollectionResult * world :=
  let w0 := logging INFO (MFetching station) w in
  match fetch_body E station w0 with
  | (Ok r, w') => (Ok r, w')
  | (Raise RequestException, w') =>
      (Raise RequestException, logging ERROR (MApiFailed station RequestException) w')
  | (Raise e, w') => (Raise e, logging ERROR (MUnexpected station e) w')
  end.

(** The task id of a station's collection task, as the DAG block and
    [log_collection_summary] both spell it:
    [f'collect_{station.replace("-", "_").lower()}']. *)
Definition task_id (station : string) : string :=
  "collect_" ++ lower (str_replace "-" "_" station).

(** The XCom rows of one DAG run: task id, key, value, oldest first. *)
Definition xcoms : Type := list (string * string * Z).

(** [ti.xcom_pull(task_ids=task, key=key)]: the value that task pushed
    last under that key, [None] when it pushed none. *)
Fixpoint xcom_pull (X : xcoms) (task key : string) : option Z :=
  match X with
  | [] => None
  | (t, k, v) :: rest =>
      match xcom_pull rest task key with
      | Some v' => Some v'
      | None => if String.eqb t task && String.eqb k key then Some v else None
      end
  end.

(** [x or 0]. *)
Definition or_zero (x : option Z) : Z :=
  match x with
  | Some v => v
  | None => 0
  end.

(** The loop of [log_collection_summary] over a list of stations. *)
Fixpoint summary_loop (X : xcoms) (stations : list string) (total : Z) : Z :=
  match stations with
  | [] => total
  | station :: rest =>
      let count := or_zero (xcom_pull X (task_id station) "departures_count") in
      summary_loop X rest (total + count)
  end.

Inductive summary_message : Type :=
| MCollectionSummary (total : Z).

(** [log_collection_summary]: the total returned and the logging call. *)
Definition log_collection_summary (X : xcoms) : Z * (level * summary_message) :=
  let total := summary_loop X STATIONS 0 in
  (total, (INFO, MCollectionSummary total)).

(** One collection task of the DAG block: the callable runs with
    [op_kwargs={'station': station}]; what it pushes goes to the XCom rows
    under the task's id. *)
Definition run_task (E : env) (station : string) (s : world * xcoms)
  : result CollectionResult * (world * xcoms) :=
  let '(w, X) := s in
  let '(r, w') := fetch_and_store_liveboard E station w in
  let pushed := skipn (List.length (xcom w)) (xcom w') in
  (r, (w', (X ++ map (fun kv => (task_id station, fst kv, snd kv)) pushed)%list)).

(** The collection tasks run one after the other, each once. *)
Fixpoint run_tasks (E : env) (stations : list string) (s : world * xcoms)
  : list (result CollectionResult) * (world * xcoms) :=
  match stations with
  | [] => ([], s)
  | station :: rest =>
      let '(r, s') := run_task E station s in
      let '(rs, s'') := run_tasks E rest s' in
      (r :: rs, s'')
  end.

End Dag.

(* ===================================================================== *)
(** ** Vocabulary of the statements *)
(* ===================================================================== *)

(** [old] occurs somewhere in [s]. *)
Fixpoint occurs (old s : string) : bool :=
  String.prefix old s
  || match s with
     | EmptyString => false
     | String _ s' => occurs old s'
     end.

(** The carrier prefix without its last character. *)
Definition carrier_stem : string := "BE.NMBS".

(** The string made of the segments, each followed by [sep], and then
    [last]. *)
Fixpoint join (sep : string) (segs : list string) (last : string) : string :=
  match segs with
  | [] => last
  | p :: rest => p ++ sep ++ join sep rest last
  end.

(** When the carrier prefix follows the segment, no occurrence of the
    prefix begins inside the segment: the prefix after it is the first. *)
Definition clean_segment (p : string) : bool :=
  negb (occurs carrier (p ++ carrier_stem)).

Definition is_obj (v : json) : bool :=
  match v with JObj _ => true | _ => false end.

Definition is_str (v : json) : bool :=
  match v with JStr _ => true | _ => false end.

(** [int] takes it. *)
Definition int_like (v : json) : bool := is_ok (py_int v).

(** [int] takes it and [datetime.fromtimestamp] takes the number. *)
Definition epoch_like (v : json) : bool :=
  match py_int v with
  | Ok n => is_ok (fromtimestamp n)
  | Raise _ => false
  end.

(** A field that may be left out, and satisfies [P] when it is there. *)
Definition optional (kvs : list (string * json)) (k : string) (P : json -> bool) : bool :=
  match assoc k kvs with
  | None => true
  | Some v => P v
  end.

Definition absent (kvs : list (string * json)) (k : string) : Prop :=
  assoc k kvs = None.

(** The shape of a liveboard body, as far as the collectors read it before
    the insert loop: an object; [departures] and [stationinfo], when there,
    are objects; [timestamp], when there, is an epoch value. *)
Definition wf_response (data : json) : bool :=
  match data with
  | JObj kvs =>
      optional kvs "departures" is_obj
      && optional kvs "timestamp" epoch_like
      && optional kvs "stationinfo" is_obj
  | _ => false
  end.

(** The shape of one raw departure: an object; [vehicle], when there, is a
    string; [time], [delay] and [canceled], when there, are numbers or
    numerals. *)
Definition wf_departure (dep : json) : bool :=
  match dep with
  | JObj kvs =>
      optional kvs "vehicle" is_str
      && optional kvs "time" int_like
      && optional kvs "delay" int_like
      && optional kvs "canceled" int_like
  | _ => false
  end.

(** The response names no display name: [stationinfo] is left out, or is
    an object without [standardname]. *)
Definition lacks_standardname (data : json) : bool :=
  match data with
  | JObj kvs =>
      match assoc "stationinfo" kvs with
      | None => true
      | Some (JObj si) => match assoc "standardname" si with None => true | Some _ => false end
      | Some _ => false
      end
  | _ => false
  end.

(** The row a departure becomes when the store takes it: the parameter
    tuple, adapted by the driver and coerced to the columns. *)
Definition row_of (station_name : json) (collected_at : Z) (dep : json) : result row :=
  p <- insert_params station_name collected_at dep ;;
  a <- adapt p ;;
  let '(st, ti, ve, pl, de) := a in
  coerce p st ti ve pl de.

Definition nothing (station : string) : CollectionResult :=
  {| cr_station := station; inserted := 0; attempted := 0 |}.



(** None of the rows of [new], put after [old] one by one, has the
    natural key of a row before it. *)
Fixpoint fresh_keys (old new : list row) : bool :=
  match new with
  | [] => true
  | r :: rest => negb (existsb (same_key r) old) && fresh_keys (old ++ [r]) rest
  end.

(** The table takes the rows one after the other: it declares no unique
    key, or their keys are new to it and differ from one another. *)
Definition no_clash (t : table) (new : list row) : bool :=
  negb (natural_key_unique t) || fresh_keys (rows t) new.

(** The store refuses the departure when it is the only one of its
    transaction: the tuple does not build, a parameter is refused or does
    not fit its column, the table is missing, or the table declares the
    key unique and holds it already. *)
Definition refused_alone (d : database) (station_name : json) (collected_at : Z)
    (dep : json) : bool :=
  negb (is_ok (fst (try_insert d station_name collected_at dep begin))).

(** How the timestamp field of a response reads as a collection time. *)
Definition timestamp_reads (data : json) (cat : Z) : Prop :=
  match data with
  | JObj kvs =>
      match assoc "timestamp" kvs with
      | None => cat = 0
      | Some (JInt n) => cat = n
      | Some (JBool b) => cat = (if b then 1 else 0)
      | Some (JStr s) => int_of_string s = Some cat
      | Some _ => False
      end
  | _ => False
  end.

(** The exception classes the server answers an INSERT with: the table
    is missing, a value does not fit its column, a constraint is violated,
    or the transaction has failed before. *)
Definition server_error (e : exn) : bool :=
  match e with
  | UndefinedTable | DataError | IntegrityError | InFailedSqlTransaction => true
  | _ => false
  end.

(** A debug logging call for a record skipped with a server error. *)
Definition server_skip (en : entry) : bool :=
  match en with
  | (DEBUG, MSkipping e) => server_error e
  | _ => false
  end.

(** The table exists. *)
Definition has_table (w : world) : Prop := db w <> None.


(** The driver refuses the departure before anything reaches the server:
    the parameter tuple does not build, or a parameter cannot be adapted. *)
Definition client_refused (station_name : json) (collected_at : Z) (dep : json) : bool :=
  negb (is_ok (p <- insert_params station_name collected_at dep ;; adapt p)).

(** The store can take the departure. *)
Definition storable (station_name : json) (collected_at : Z) (dep : json) : bool :=
  is_ok (row_of station_name collected_at dep).

(** The rows of the departures the store can take, in order. *)
Definition rows_of (station_name : json) (collected_at : Z) (deps : list json)
  : list row :=
  flat_map (fun dep => match row_of station_name collected_at dep with
                       | Ok r => [r]
                       | Raise _ => []
                       end) deps.

(** The database with [new] rows after the rows of its table. *)
Definition extend (d : database) (new : list row) : database :=
  option_map (fun t => {| natural_key_unique := natural_key_unique t;
                          rows := rows t ++ new |}) d.

(** No two rows of the list share their natural key. *)
Fixpoint keys_distinct (rs : list row) : bool :=
  match rs with
  | [] => true
  | r :: rest => negb (existsb (same_key r) rest) && keys_distinct rest
  end.

(** What a task's outcome counts for in a sum of counts. *)
Definition counted (r : result CollectionResult) : Z :=
  match r with
  | Ok c => inserted c
  | Raise _ => 0
  end.

Fixpoint all_chars (P : ascii -> bool) (s : string) : bool :=
  match s with
  | EmptyString => true
  | String c s' => P c && all_chars P s'
  end.

Definition not_hyphen (c : ascii) : bool := negb (Ascii.eqb c "-").

Definition not_upper (c : ascii) : bool := negb (is_upper c).

(** The sum of what the tasks' outcomes count for. *)
Definition sum_counted (outs : list (result CollectionResult)) : Z :=
  fold_right (fun r acc => counted r + acc) 0 outs.

(** The text a station name is stored as: adapted by the driver, then
    assigned to the VARCHAR(100) column. *)
Definition stored_station (station_name : json) : result (option string) :=
  st <- adapt_text station_name ;;
  varchar 100 st.

(** A row of the collection that read [station_name] and [collected_at] off
    its response. *)
Definition row_from (station_name : json) (collected_at : Z) (r : row) : Prop :=
  Pg.collected_at r = collected_at
  /\ stored_station station_name = Ok (Some (station r)).

(** *** Sample liveboards *)

Module Sample.

Definition departure (veh time : string) : json :=
  JObj [("vehicle", JStr veh); ("platform", JStr "4"); ("time", JStr time);
        ("delay", JStr "60"); ("canceled", JStr "0"); ("station", JStr "Oostende")].

Definition ic1 : json := departure "BE.NMBS.IC1" "1700000000".
Definition ic2 : json := departure "BE.NMBS.IC2" "1700000600".
Definition ic3 : json := departure "BE.NMBS.IC3" "1700001200".

(** A departure whose [time] is not a numeral. *)
Definition garbled : json := JObj [("vehicle", JStr "BE.NMBS.IC9"); ("time", JStr "soon")].

Definition liveboard (deps : list json) : json :=
  JObj [("departures", JObj [("departure", JArr deps)]);
        ("timestamp", JStr "1700000100");
        ("stationinfo", JObj [("standardname", JStr "Brussels-Central")])].

(** A liveboard stamped with epoch 0, without [stationinfo]. *)
Definition at_epoch0 (deps : list json) : json :=
  JObj [("departures", JObj [("departure", JArr deps)]); ("timestamp", JInt 0)].

(** A departure that names its vehicle and nothing else. *)
Definition bare : list (string * json) := [("vehicle", JStr "BE.NMBS.IC9")].

(** Every station answers with the same liveboard stamped with epoch 0. *)
Definition serving_at_epoch0 (deps : list json) : env :=
  {| http_get := fun _ => Ok (at_epoch0 deps); db_connect := fun _ => Ok tt |}.

(** Every station answers with the same liveboard; the database is up. *)
Definition serving (deps : list json) : env :=
  {| http_get := fun _ => Ok (liveboard deps); db_connect := fun _ => Ok tt |}.

(** Antwerp's request fails, the other stations answer. *)
Definition one_down : env :=
  {| http_get := fun s => if String.eqb s "Antwerp-Central"
                          then Raise RequestException
                          else Ok (liveboard [ic1]);
     db_connect := fun _ => Ok tt |}.

(** Every request fails. *)
Definition offline : env :=
  {| http_get := fun _ => Raise RequestException; db_connect := fun _ => Ok tt |}.


(** No table yet, nothing logged. *)
Definition fresh : world := {| db := None; connects := 0; log := []; xcom := [] |}.

Definition stored (veh : string) (tid : string) (time : Z) : row :=
  {| station := "Brussels-Central"; train_id := tid; vehicle := Some veh;
     platform := Some "4"; scheduled_time := time; delay_seconds := 60;
     cancelled := false; destination := Some "Oostende"; collected_at := 1700000100 |}.

Definition row1 : row := stored "BE.NMBS.IC1" "IC1" 1700000000.
Definition row2 : row := stored "BE.NMBS.IC2" "IC2" 1700000600.
Definition row3 : row := stored "BE.NMBS.IC3" "IC3" 1700001200.

(** A table that declares the natural key unique. *)
Definition keyed (rs : list row) : world :=
  {| db := Some {| natural_key_unique := true; rows := rs |};
     connects := 0; log := []; xcom := [] |}.

Definition stored_rows (w : world) : list row :=
  match db w with
  | Some t => rows t
  | None => []
  end.

End Sample.

(* ===================================================================== *)
(** ** The carrier prefix and [str.replace] *)
(* ===================================================================== *)

Lemma remove_from_absent (old s : string) :
  occurs old s = false -> remove_from old O s = s.
Proof.
  induction s as [|c s IH]; intros H; [reflexivity|].
  cbn [occurs] in H. apply orb_false_iff in H. destruct H as [Hp Ho].
  cbn [remove_from]. rewrite Hp, (IH Ho). reflexivity.
Qed.

Lemma remove_carrier_prefix (s : string) :
  str_remove carrier (carrier ++ s) = str_remove carrier s.
Proof. unfold str_remove, carrier. cbn. destruct s; reflexivity. Qed.

Lemma train_id_of_vehicle (kvs : list (string * json)) (v : string) :
  assoc "vehicle" kvs = Some (JStr v) ->
  train_id_of (JObj kvs) = Ok (str_remove carrier v).
Proof. intros H. unfold train_id_of, dict_get. rewrite H. reflexivity. Qed.

Lemma append_assoc_s (a b c : string) : (a ++ b) ++ c = a ++ b ++ c.
Proof. induction a as [|x a IH]; [reflexivity|]. cbn. now rewrite IH. Qed.

Lemma length_append_s (a b : string) :
  String.length (a ++ b) = (String.length a + String.length b)%nat.
Proof. induction a as [|x a IH]; [reflexivity|]. cbn. now rewrite IH. Qed.

Lemma prefix_nil (s : string) : String.prefix "" s = true.
Proof. destruct s; reflexivity. Qed.

(** Whether [old] starts a string is decided by the string's first
    characters, as many as [old] has. *)
Lemma prefix_app_long (old : string) :
  forall a b, (String.length old <= String.length a)%nat ->
    String.prefix old (a ++ b) = String.prefix old a.
Proof.
  induction old as [|x old IH]; intros a b Hl.
  - now rewrite !prefix_nil.
  - destruct a as [|y a]; [cbn in Hl; lia|].
    cbn [append String.prefix]. destruct (ascii_dec x y); [|reflexivity].
    apply IH. cbn in Hl. lia.
Qed.

Lemma prefix_split (old : string) :
  forall s, String.prefix old s = true -> exists s', s = old ++ s'.
Proof.
  induction old as [|x old IH]; intros s H.
  - exists s. reflexivity.
  - destruct s as [|y s]; [discriminate|]. cbn [String.prefix] in H.
    destruct (ascii_dec x y) as [<-|]; [|discriminate].
    destruct (IH s H) as [s' ->]. exists s'. reflexivity.
Qed.

Lemma carrier_split : carrier = carrier_stem ++ ".".
Proof. reflexivity. Qed.

(** A segment, the prefix, and more: the first occurrence of the prefix
    is dropped and the segment before it kept. *)
Lemma remove_clean_segment (p s : string) :
  clean_segment p = true ->
  str_remove carrier (p ++ carrier ++ s) = p ++ str_remove carrier s.
Proof.
  unfold clean_segment, str_remove. induction p as [|c p IH]; intros H.
  - exact (remove_carrier_prefix s).
  - apply negb_true_iff in H. cbn [append occurs] in H.
    apply orb_false_iff in H. destruct H as [Hp Ho].
    cbn [append remove_from].
    assert (Hq : String.prefix carrier (String c (p ++ carrier ++ s)) = false).
    { rewrite carrier_split at 2. rewrite append_assoc_s.
      rewrite <- (append_assoc_s p carrier_stem).
      change (String c ((p ++ carrier_stem) ++ "." ++ s))
        with (String c (p ++ carrier_stem) ++ "." ++ s).
      rewrite prefix_app_long; [exact Hp|].
      cbn [String.length]. rewrite length_append_s. cbn. lia. }
    rewrite Hq. f_equal. apply IH. now rewrite Ho.
Qed.

Lemma remove_join (segs : list string) (last : string) :
  forallb clean_segment segs = true ->
  occurs carrier last = false ->
  str_remove carrier (join carrier segs last) = join "" segs last.
Proof.
  intros Hs Hl. induction segs as [|p segs IH].
  - cbn. unfold str_remove. now apply remove_from_absent.
  - cbn [forallb] in Hs. apply andb_true_iff in Hs. destruct Hs as [Hp Hs].
    cbn [join]. rewrite (remove_clean_segment _ _ Hp), (IH Hs). reflexivity.
Qed.

(** A string that holds the prefix splits at its first occurrence. *)
Lemma first_occurrence (v : string) :
  occurs carrier v = true ->
  exists p s, v = p ++ carrier ++ s /\ clean_segment p = true.
Proof.
  induction v as [|c v IH]; intros H; [discriminate|].
  cbn [occurs] in H. destruct (String.prefix carrier (String c v)) eqn:Hp.
  - destruct (prefix_split _ _ Hp) as [s ->]. exists "", s. split; reflexivity.
  - cbn [orb] in H. destruct (IH H) as (p & s & -> & Hc).
    exists (String c p), s. split; [reflexivity|].
    unfold clean_segment in *. apply negb_true_iff in Hc. apply negb_true_iff.
    cbn [append occurs]. rewrite Hc, orb_false_r.
    rewrite carrier_split in Hp at 2. rewrite append_assoc_s in Hp.
    rewrite <- (append_assoc_s p carrier_stem) in Hp.
    change (String c ((p ++ carrier_stem) ++ "." ++ s))
      with (String c (p ++ carrier_stem) ++ "." ++ s) in Hp.
    rewrite prefix_app_long in Hp; [exact Hp|].
    cbn [String.length]. rewrite length_append_s. cbn. lia.
Qed.

(** Every string is segments, each followed by the prefix as its first
    occurrence, and a last part without the prefix. *)
Lemma segments_exist (n : nat) :
  forall v, (String.length v <= n)%nat ->
    exists segs last,
      v = join carrier segs last
      /\ forallb clean_segment segs = true
      /\ occurs carrier last = false.
Proof.
  induction n as [|n IH]; intros v Hn.
  - destruct v; [|cbn in Hn; lia]. exists [], "". repeat split.
  - destruct (occurs carrier v) eqn:Ho.
    + destruct (first_occurrence v Ho) as (p & s & -> & Hc).
      rewrite !length_append_s in Hn. cbn [carrier String.length] in Hn.
      destruct (IH s ltac:(lia)) as (segs & last & -> & Hs & Hl).
      exists (p :: segs), last. cbn [join forallb]. rewrite Hc, Hs. auto.
    + exists [], v. auto.
Qed.

(** C4, as amended: [replace] drops the carrier prefix wherever it occurs,
    each occurrence found scanning from the left.  Every vehicle id can
    be written as segments, each followed by the prefix as the first
    occurrence from the segment's start, and a last part without the
    prefix; the train id is then the segments and the last part put
    together without the prefixes.  So an id that is the prefix followed by
    [rest] gives [rest] with its own occurrences dropped as well ([rest]
    itself when it holds none), an id that holds the prefix after its start
    loses it there, and an id that holds no occurrence is unchanged. *)
Theorem C4_train_id_drops_every_occurrence
    (kvs : list (string * json)) (v rest : string)
    (Hveh : assoc "vehicle" kvs = Some (JStr v)) :
  (exists segs last,
     v = join carrier segs last
     /\ forallb clean_segment segs = true
     /\ occurs carrier last = false)
  /\ (forall segs last,
        v = join carrier segs last ->
        forallb clean_segment segs = true ->
        occurs carrier last = false ->
        train_id_of (JObj kvs) = Ok (join "" segs last))
  /\ (v = carrier ++ rest ->
      train_id_of (JObj kvs) = Ok (str_remove carrier rest)
      /\ (occurs carrier rest = false -> train_id_of (JObj kvs) = Ok rest))
  /\ (occurs carrier v = false -> train_id_of (JObj kvs) = Ok v).
Proof.
  rewrite (train_id_of_vehicle kvs v Hveh).
  split; [exact (segments_exist (String.length v) v (le_n _))|].
  split; [intros segs last -> Hs Hl; now rewrite remove_join|].
  split.
  - intros ->. rewrite remove_carrier_prefix. split; [reflexivity|].
    intros H. unfold str_remove. now rewrite remove_from_absent.
  - intros H. unfold str_remove. now rewrite remove_from_absent.
Qed.

Lemma C4_train_id_witness :
  train_id_of Sample.ic1 = Ok "IC1"
  /\ train_id_of (JObj [("vehicle", JStr "IC1")]) = Ok "IC1"
  /\ train_id_of (JObj [("vehicle", JStr "IC.BE.NMBS.1")]) = Ok "IC.1"
  /\ train_id_of (JObj [("vehicle", JStr "BE.NMBS.BE.NMBS.IC1")]) = Ok "IC1".
Proof.
  split; [|split; [|split]].
  - apply (C4_train_id_drops_every_occurrence _ "BE.NMBS.IC1" "IC1");
      reflexivity.
  - apply (C4_train_id_drops_every_occurrence _ "IC1" "");
      reflexivity.
  - destruct (C4_train_id_drops_every_occurrence
                [("vehicle", JStr "IC.BE.NMBS.1")] "IC.BE.NMBS.1" "" eq_refl)
      as (_ & H & _).
    exact (H ["IC."] "1" eq_refl eq_refl eq_refl).
  - destruct (C4_train_id_drops_every_occurrence
                [("vehicle", JStr "BE.NMBS.BE.NMBS.IC1")] "BE.NMBS.BE.NMBS.IC1" ""
                eq_refl) as (_ & H & _).
    exact (H [""; ""] "IC1" eq_refl eq_refl eq_refl).
Defined.

(** C4, as stated, fails twice: an id that repeats the prefix loses both
    copies, and an id that holds the prefix after its start loses it too. *)
Lemma C4_counterexample :
  train_id_of (JObj [("vehicle", JStr (carrier ++ "BE.NMBS.IC1"))])
    <> Ok "BE.NMBS.IC1"
  /\ String.prefix carrier "IC.BE.NMBS.1" = false
  /\ train_id_of (JObj [("vehicle", JStr "IC.BE.NMBS.1")]) <> Ok "IC.BE.NMBS.1".
Proof. repeat split; discriminate. Qed.

(* ===================================================================== *)
(** ** Duplicates, one batch, and the count returned *)
(* ===================================================================== *)

(** C1 on the code: the table [ensure_schema] creates declares no unique
    key, so the same liveboard collected twice leaves its departure in the
    table twice, and the second collection returns 1, in the script and in
    the DAG alike. *)
Theorem C1_same_departure_stored_twice :
  let E := Sample.serving [Sample.ic1] in
  let w1 := snd (Script.ensure_schema E Sample.fresh) in
  let s1 := Script.collect_station E "Brussels-Central" w1 in
  let s2 := Script.collect_station E "Brussels-Central" (snd s1) in
  let d1 := Dag.fetch_and_store_liveboard E "Brussels-Central" w1 in
  let d2 := Dag.fetch_and_store_liveboard E "Brussels-Central" (snd d1) in
  db w1 = Some {| natural_key_unique := false; rows := [] |}
  /\ inserted (fst s1) = 1
  /\ inserted (fst s2) = 1
  /\ Sample.stored_rows (snd s2) = [Sample.row1; Sample.row1]
  /\ option_map inserted (match fst d2 with Ok r => Some r | Raise _ => None end) = Some 1
  /\ Sample.stored_rows (snd d2) = [Sample.row1; Sample.row1].
Proof. vm_compute. repeat split; reflexivity. Qed.

(** C2 on the code, on a table that declares the natural key unique and
    holds the second of three departures already.  The script undoes the
    whole open transaction at the duplicate: the first departure, inserted
    before it, is never committed.  The DAG leaves the transaction failed:
    the third departure is refused and the closing commit stores nothing. *)
Theorem C2_duplicate_costs_other_records :
  let E := Sample.serving [Sample.ic1; Sample.ic2; Sample.ic3] in
  let w := Sample.keyed [Sample.row2] in
  let s := Script.collect_station E "Brussels-Central" w in
  let d := Dag.fetch_and_store_liveboard E "Brussels-Central" w in
  Sample.stored_rows (snd s) = [Sample.row2; Sample.row3]
  /\ ~ In Sample.row1 (Sample.stored_rows (snd s))
  /\ Sample.stored_rows (snd d) = [Sample.row2]
  /\ ~ In Sample.row3 (Sample.stored_rows (snd d))
  /\ log (snd d) = [(INFO, MFetching "Brussels-Central");
                    (DEBUG, MSkipping IntegrityError);
                    (DEBUG, MSkipping InFailedSqlTransaction);
                    (INFO, MStationDone (JStr "Brussels-Central") 1 3)].
Proof.
  vm_compute. repeat split; try reflexivity.
  - intros [H|[H|[]]]; discriminate H.
  - intros [H|[]]; discriminate H.
Qed.

(** C3 on the code: the count returned can exceed the rows committed.  On
    the keyed table a batch of a new departure and a duplicate returns 1
    and commits nothing, in both collectors; on the table [ensure_schema]
    creates, a batch of a good departure and one whose time is no numeral
    returns 1 from the script and commits nothing. *)
Theorem C3_count_exceeds_rows_committed :
  let E := Sample.serving [Sample.ic1; Sample.ic2] in
  let w := Sample.keyed [Sample.row2] in
  let s := Script.collect_station E "Brussels-Central" w in
  let d := Dag.fetch_and_store_liveboard E "Brussels-Central" w in
  let E' := Sample.serving [Sample.ic1; Sample.garbled] in
  let w' := snd (Script.ensure_schema E' Sample.fresh) in
  let s' := Script.collect_station E' "Brussels-Central" w' in
  (inserted (fst s) = 1 /\ Sample.stored_rows (snd s) = Sample.stored_rows w)
  /\ (fst d = Ok {| cr_station := "Brussels-Central"; inserted := 1; attempted := 2 |}
      /\ Sample.stored_rows (snd d) = Sample.stored_rows w)
  /\ (inserted (fst s') = 1 /\ Sample.stored_rows (snd s') = []).
Proof. vm_compute. repeat split; reflexivity. Qed.

(* ===================================================================== *)
(** ** Reading a response *)
(* ===================================================================== *)

Lemma optional_spec (kvs : list (string * json)) (k : string) (P : json -> bool) :
  optional kvs k P = true ->
  assoc k kvs = None \/ exists v, assoc k kvs = Some v /\ P v = true.
Proof.
  unfold optional. destruct (assoc k kvs) as [v|]; [|now left].
  intros H. right. now exists v.
Qed.

Lemma dict_get_obj (kvs : list (string * json)) (k : string) (dflt : json) :
  dict_get (JObj kvs) k dflt
  = Ok (match assoc k kvs with Some v => v | None => dflt end).
Proof. reflexivity. Qed.

Lemma int_like_ok (v : json) :
  int_like v = true -> exists n, py_int v = Ok n.
Proof.
  unfold int_like. destruct (py_int v) as [n|e]; [|discriminate].
  intros _. now exists n.
Qed.

(** An optional numeric field converts: to its own value, or to the
    default 0 when it is left out. *)
Lemma int_field_ok (kvs : list (string * json)) (k : string) :
  optional kvs k int_like = true ->
  exists n, py_int (match assoc k kvs with Some v => v | None => JInt 0 end) = Ok n
            /\ (absent kvs k -> n = 0).
Proof.
  intros H. unfold absent.
  destruct (optional_spec _ _ _ H) as [Hn | (v & Hv & Pv)].
  - rewrite Hn. exists 0. split; [reflexivity | trivial].
  - rewrite Hv. destruct (int_like_ok v Pv) as [n Hn]. exists n.
    split; [exact Hn | discriminate].
Qed.

(** An optional vehicle id is a string: its own, or the default empty one. *)
Lemma vehicle_field_ok (kvs : list (string * json)) :
  optional kvs "vehicle" is_str = true ->
  exists v, match assoc "vehicle" kvs with Some x => x | None => JStr "" end = JStr v
            /\ (absent kvs "vehicle" -> v = "").
Proof.
  intros H. unfold absent.
  destruct (optional_spec _ _ _ H) as [Hn | (x & Hx & Px)].
  - rewrite Hn. exists "". split; [reflexivity | trivial].
  - rewrite Hx. destruct x; try discriminate. eexists. split; [reflexivity | discriminate].
Qed.

Lemma wf_response_obj (data : json) :
  wf_response data = true -> exists kvs, data = JObj kvs.
Proof. destruct data; try discriminate. intros _. eauto. Qed.

(** A well-formed response parses: the departures are what
    [raw_departures] finds, the collection time is the response epoch. *)
Lemma parse_response_ok (station : string) (data : json) :
  wf_response data = true ->
  exists departures cat name,
    parse_response station data = Ok (departures, cat, name)
    /\ raw_departures data = Ok departures
    /\ response_epoch data = Ok cat
    /\ display_name station data = Ok name.
Proof.
  intros H. destruct (wf_response_obj data H) as [kvs ->].
  cbn [wf_response] in H.
  apply andb_true_iff in H. destruct H as [H Hsi].
  apply andb_true_iff in H. destruct H as [Hdep Hts].
  unfold parse_response, raw_departures, response_epoch, display_name.
  rewrite !dict_get_obj. cbn [bind].
  assert (Hd : exists departures,
             dict_get (match assoc "departures" kvs with
                       | Some v => v | None => JObj [] end)
                      "departure" (JArr []) = Ok departures).
  { destruct (optional_spec _ _ _ Hdep) as [Hn | (v & Hv & Pv)].
    - rewrite Hn. eexists. reflexivity.
    - rewrite Hv. destruct v; try discriminate. eexists. reflexivity. }
  destruct Hd as [departures Hd]. rewrite Hd. cbn [bind].
  assert (Ht : exists cat,
             py_int (match assoc "timestamp" kvs with
                     | Some v => v | None => JInt 0 end) = Ok cat
             /\ fromtimestamp cat = Ok cat).
  { destruct (optional_spec _ _ _ Hts) as [Hn | (v & Hv & Pv)].
    - rewrite Hn. exists 0. split; reflexivity.
    - rewrite Hv. unfold epoch_like in Pv.
      destruct (py_int v) as [n|]; [|discriminate]. exists n. split; [reflexivity|].
      unfold fromtimestamp in *.
      destruct ((datetime_min <=? n) && (n <=? datetime_max)); [reflexivity|].
      destruct (negb ((- 2 ^ 63 <=? n) && (n <? 2 ^ 63))); [discriminate|].
      destruct (negb ((localtime_min <=? n) && (n <=? localtime_max))); discriminate. }
  destruct Ht as (cat & Hc & Hf). rewrite Hc. cbn [bind]. rewrite Hf. cbn [bind].
  assert (Hs : exists name,
             dict_get (match assoc "stationinfo" kvs with
                       | Some v => v | None => JObj [] end)
                      "standardname" (JStr station) = Ok name).
  { destruct (optional_spec _ _ _ Hsi) as [Hn | (v & Hv & Pv)].
    - rewrite Hn. eexists. reflexivity.
    - rewrite Hv. destruct v; try discriminate. eexists. reflexivity. }
  destruct Hs as [name Hs]. rewrite Hs. cbn [bind].
  exists departures, cat, name. repeat split; reflexivity.
Qed.

(** A well-formed departure gives its parameter tuple; a field left out
    shows as its default. *)
Lemma insert_params_ok (name : json) (cat : Z) (kvs : list (string * json)) :
  wf_departure (JObj kvs) = true ->
  exists p, insert_params name cat (JObj kvs) = Ok p
    /\ p_station p = name
    /\ p_collected_at p = cat
    /\ (absent kvs "vehicle" -> p_vehicle p = JStr "" /\ p_train_id p = "")
    /\ (absent kvs "platform" -> p_platform p = JStr "")
    /\ (absent kvs "time" -> p_time p = 0)
    /\ (absent kvs "delay" -> p_delay p = 0)
    /\ (absent kvs "canceled" -> p_cancelled p = false)
    /\ (absent kvs "station" -> p_destination p = JStr "").
Proof.
  intros H. cbn [wf_departure] in H.
  apply andb_true_iff in H. destruct H as [H Hc].
  apply andb_true_iff in H. destruct H as [H Hd].
  apply andb_true_iff in H. destruct H as [Hv Ht].
  destruct (vehicle_field_ok kvs Hv) as (v & Ev & Dv).
  destruct (int_field_ok kvs "time" Ht) as (t & Et & Dt).
  destruct (int_field_ok kvs "delay" Hd) as (dl & Ed & Dd).
  destruct (int_field_ok kvs "canceled" Hc) as (c & Ec & Dc).
  unfold insert_params, train_id_of. rewrite !dict_get_obj. cbn [bind].
  rewrite Ev. cbn [py_replace bind]. rewrite Et. cbn [bind].
  rewrite Ed. cbn [bind]. rewrite Ec. cbn [bind].
  eexists. split; [reflexivity|]. cbn.
  split; [reflexivity|]. split; [reflexivity|].
  split; [intros H; rewrite (Dv H); split; reflexivity|].
  split; [intros H; unfold absent in H; now rewrite H|].
  split; [exact Dt|]. split; [exact Dd|].
  split; [intros H; rewrite (Dc H); reflexivity|].
  intros H. unfold absent in H. now rewrite H.
Qed.

Lemma wf_departure_obj (dep : json) :
  wf_departure dep = true -> exists kvs, dep = JObj kvs.
Proof. destruct dep; try discriminate. intros _. eauto. Qed.

Lemma insert_params_all_ok (name : json) (cat : Z) (deps : list json) :
  forallb wf_departure deps = true ->
  exists ps, map (insert_params name cat) deps = map Ok ps
    /\ List.length ps = List.length deps
    /\ Forall (fun p => p_collected_at p = cat /\ p_station p = name) ps.
Proof.
  induction deps as [|dep deps IH]; intros H.
  - exists []. repeat split; constructor.
  - cbn [forallb] in H. apply andb_true_iff in H. destruct H as [Hd Hr].
    destruct (IH Hr) as (ps & Hm & Hl & Hf).
    destruct (wf_departure_obj dep Hd) as [kvs ->].
    destruct (insert_params_ok name cat kvs Hd) as (p & Hp & Hs & Hc & _).
    exists (p :: ps). cbn [map List.length]. rewrite Hp, Hm, Hl.
    repeat split. constructor; auto.
Qed.

Lemma display_name_fallback (station : string) (data : json) :
  lacks_standardname data = true ->
  display_name station data = Ok (JStr station).
Proof.
  destruct data as [| | | | |kvs]; try discriminate. cbn [lacks_standardname].
  unfold display_name. rewrite dict_get_obj. cbn [bind].
  destruct (assoc "stationinfo" kvs) as [si|]; [|reflexivity].
  destruct si as [| | | | |si]; try discriminate.
  rewrite dict_get_obj. destruct (assoc "standardname" si); [discriminate|reflexivity].
Qed.

(** C10: a raw departure object whose present fields are well-typed gives
    its parameter tuple without raising, whichever fields are left out, and
    each field left out shows as its default: the empty string for vehicle,
    train id, platform and destination, time 0 (the epoch), delay 0, not
    cancelled.  When the response has no [stationinfo], or one without
    [standardname], the station of the record is the station key the
    collector was called with. *)
Theorem C10_absent_fields_default
    (station : string) (data : json) (name : json) (cat : Z)
    (kvs : list (string * json))
    (Hdep : wf_departure (JObj kvs) = true) :
  (exists p, insert_params name cat (JObj kvs) = Ok p
     /\ p_station p = name
     /\ (absent kvs "vehicle" -> p_vehicle p = JStr "" /\ p_train_id p = "")
     /\ (absent kvs "platform" -> p_platform p = JStr "")
     /\ (absent kvs "time" -> p_time p = 0 /\ to_timestamp (p_time p) = Ok 0)
     /\ (absent kvs "delay" -> p_delay p = 0)
     /\ (absent kvs "canceled" -> p_cancelled p = false)
     /\ (absent kvs "station" -> p_destination p = JStr ""))
  /\ (lacks_standardname data = true ->
      display_name station data = Ok (JStr station)
      /\ forall d c n, parse_response station data = Ok (d, c, n) -> n = JStr station).
Proof.
  split.
  - destruct (insert_params_ok name cat kvs Hdep)
      as (p & Hp & Hs & _ & Hv & Hpl & Ht & Hd & Hc & Hde).
    exists p. split; [exact Hp|]. split; [exact Hs|].
    split; [exact Hv|]. split; [exact Hpl|].
    split; [intros H; rewrite (Ht H); split; reflexivity|].
    split; [exact Hd|]. split; [exact Hc | exact Hde].
  - intros H. pose proof (display_name_fallback station data H) as Hn.
    split; [exact Hn|]. intros d c n. unfold parse_response. rewrite Hn.
    destruct (raw_departures data); cbn [bind]; [|discriminate].
    destruct (response_epoch data) as [z|]; cbn [bind]; [|discriminate].
    destruct (fromtimestamp z); cbn [bind]; [|discriminate].
    intros E. now injection E.
Qed.

Lemma C10_absent_fields_default_witness :
  wf_departure (JObj Sample.bare) = true
  /\ absent Sample.bare "time"
  /\ lacks_standardname (Sample.at_epoch0 []) = true
  /\ (exists p, insert_params (JStr "Ghent-Sint-Pieters") 0 (JObj Sample.bare) = Ok p
        /\ p_time p = 0 /\ p_cancelled p = false /\ p_platform p = JStr "")
  /\ display_name "Ghent-Sint-Pieters" (Sample.at_epoch0 []) = Ok (JStr "Ghent-Sint-Pieters").
Proof.
  assert (Hwf : wf_departure (JObj Sample.bare) = true) by reflexivity.
  destruct (C10_absent_fields_default "Ghent-Sint-Pieters" (Sample.at_epoch0 [])
              (JStr "Ghent-Sint-Pieters") 0 Sample.bare Hwf)
    as [(p & Hp & _ & _ & Hpl & Ht & _ & Hc & _) Hname].
  split; [exact Hwf|]. split; [reflexivity|]. split; [reflexivity|].
  split.
  - exists p. split; [exact Hp|].
    split; [apply Ht; reflexivity|]. split; [apply Hc | apply Hpl]; reflexivity.
  - apply Hname. reflexivity.
Defined.

(* ===================================================================== *)
(** ** One station *)
(* ===================================================================== *)

Lemma collect_station_fetch_failure (E : env) (station : string) (e : exn) (w : world) :
  http_get E station = Raise e ->
  Script.collect_station E station w
  = (nothing station, logging ERROR (MStationError station e) w).
Proof.
  intros H. unfold Script.collect_station, Script.collect_body.
  rewrite H. reflexivity.
Qed.

Lemma fetch_and_store_fetch_failure (E : env) (station : string) (e : exn) (w : world) :
  http_get E station = Raise e ->
  fst (Dag.fetch_and_store_liveboard E station w) = Raise e.
Proof.
  intros H. unfold Dag.fetch_and_store_liveboard, Dag.fetch_body.
  rewrite H. cbn [bind]. destruct e; reflexivity.
Qed.

Lemma logging_differs (l l' : level) (m m' : message) (w : world) :
  l <> l' -> logging l m w <> logging l' m' w.
Proof.
  intros Hl H. apply (f_equal log) in H. cbn [logging log] in H.
  apply app_inv_head in H. injection H as H _. contradiction.
Qed.

(** C7: a well-formed response whose departures are empty (or left out)
    makes the script return 0, with nothing attempted, after one warning
    and nothing else: no connection is opened, the table is untouched, no
    error is logged.  The DAG task returns 0 the same way and does not
    raise.  A failed request is told apart: the script logs an error where
    it logged a warning, the DAG task raises. *)
Theorem C7_empty_liveboard_is_no_failure
    (E : env) (station : string) (data departures : json) (w : world)
    (Hget : http_get E station = Ok data)
    (Hresp : wf_response data = true)
    (Hraw : raw_departures data = Ok departures)
    (Hempty : truthy departures = false) :
  Script.collect_station E station w
    = (nothing station, logging WARNING (MNoDepartures station) w)
  /\ Dag.fetch_and_store_liveboard E station w
    = (Ok (nothing station),
       logging WARNING (MNoDepartures station) (logging INFO (MFetching station) w))
  /\ forall (E' : env) (e : exn), http_get E' station = Raise e ->
       Script.collect_station E' station w
         = (nothing station, logging ERROR (MStationError station e) w)
       /\ snd (Script.collect_station E' station w)
            <> snd (Script.collect_station E station w)
       /\ fst (Dag.fetch_and_store_liveboard E' station w) = Raise e.
Proof.
  destruct (parse_response_ok station data Hresp) as (d & cat & name & Hp & Hr & _).
  rewrite Hraw in Hr. injection Hr as <-.
  assert (Hs : Script.collect_station E station w
               = (nothing station, logging WARNING (MNoDepartures station) w)).
  { unfold Script.collect_station, Script.collect_body.
    rewrite Hget. cbn [bind]. rewrite Hp, Hempty. reflexivity. }
  split; [exact Hs|]. split.
  - unfold Dag.fetch_and_store_liveboard, Dag.fetch_body.
    rewrite Hget. cbn [bind]. rewrite Hp, Hempty. reflexivity.
  - intros E' e He. rewrite Hs, (collect_station_fetch_failure E' station e w He).
    split; [reflexivity|]. split.
    + cbn [snd]. apply logging_differs. discriminate.
    + apply fetch_and_store_fetch_failure. exact He.
Qed.

Lemma C7_empty_liveboard_is_no_failure_witness :
  Script.collect_station (Sample.serving []) "Antwerp-Central" Sample.fresh
    = (nothing "Antwerp-Central",
       logging WARNING (MNoDepartures "Antwerp-Central") Sample.fresh)
  /\ fst (Dag.fetch_and_store_liveboard (Sample.serving []) "Antwerp-Central" Sample.fresh)
     = Ok (nothing "Antwerp-Central").
Proof.
  destruct (C7_empty_liveboard_is_no_failure (Sample.serving []) "Antwerp-Central"
              (Sample.liveboard []) (JArr []) Sample.fresh
              eq_refl eq_refl eq_refl eq_refl) as (Hs & Hd & _).
  split; [exact Hs|]. rewrite Hd. reflexivity.
Defined.

(* ===================================================================== *)
(** ** The loop over the stations *)
(* ===================================================================== *)



Lemma collect_all_acc (E : env) (stations : list string) :
  forall (total : Z) (done : list CollectionResult) (w : world),
    Script.collect_all E stations total done w
    = (total + fst (fst (Script.collect_all E stations 0 [] w)),
       (done ++ snd (fst (Script.collect_all E stations 0 [] w)))%list,
       snd (Script.collect_all E stations 0 [] w)).
Proof.
  induction stations as [|s rest IH]; intros total done w.
  - cbn. now rewrite Z.add_0_r, app_nil_r.
  - cbn [Script.collect_all].
    destruct (Script.collect_station E s w) as [r w1].
    rewrite (IH (total + inserted r) (done ++ [r])%list w1).
    rewrite (IH (0 + inserted r) ([] ++ [r])%list w1). cbn [fst snd].
    rewrite <- app_assoc. f_equal. f_equal. lia.
Qed.

(** The running total of the loop is the sum of the per-station counts. *)
Lemma collect_all_total (E : env) (stations : list string) (w : world) :
  fst (fst (Script.collect_all E stations 0 [] w))
  = total_inserted (snd (fst (Script.collect_all E stations 0 [] w))).
Proof.
  revert w. induction stations as [|s rest IH]; intros w; [reflexivity|].
  cbn [Script.collect_all]. destruct (Script.collect_station E s w) as [r w1].
  rewrite collect_all_acc. cbn [fst snd app total_inserted fold_right].
  rewrite IH. reflexivity.
Qed.

Lemma collect_all_cons (E : env) (s : string) (rest : list string) (w : world) :
  Script.collect_all E (s :: rest) 0 [] w
  = (inserted (fst (Script.collect_station E s w))
       + fst (fst (Script.collect_all E rest 0 [] (snd (Script.collect_station E s w)))),
     fst (Script.collect_station E s w)
       :: snd (fst (Script.collect_all E rest 0 [] (snd (Script.collect_station E s w)))),
     snd (Script.collect_all E rest 0 [] (snd (Script.collect_station E s w)))).
Proof.
  cbn [Script.collect_all]. destruct (Script.collect_station E s w) as [r w1].
  rewrite collect_all_acc. reflexivity.
Qed.






(* ===================================================================== *)
(** ** The exit code of [main] *)
(* ===================================================================== *)

Lemma commit_keeps_table (d : database) (x : txn) : d <> None -> commit d x <> None.
Proof.
  destruct d as [t|]; [|contradiction]. intros _. cbn.
  destruct (aborted x); discriminate.
Qed.

(** A station's collection keeps the table and opens one connection at
    most. *)
Lemma collect_station_store (E : env) (station : string) (w : world) :
  (has_table w -> has_table (snd (Script.collect_station E station w)))
  /\ (connects (snd (Script.collect_station E station w)) = connects w
      \/ connects (snd (Script.collect_station E station w)) = S (connects w)).
Proof.
  destruct w as [d c lg xc]. unfold has_table.
  unfold Script.collect_station, Script.collect_body, get_db_connection.
  cbn [db connects].
  destruct (data <- http_get E station ;; parse_response station data)
    as [[[departures cat] name]|e]; [|cbn; auto].
  destruct (negb (truthy departures)); [cbn; auto|].
  destruct (db_connect E c); [|cbn; auto].
  destruct (py_iter departures) as [deps|]; [|cbn; auto].
  destruct (Script.insert_loop d name cat deps begin 0 []) as [[x n] l].
  cbn. split; [apply commit_keeps_table | auto].
Qed.

Lemma collect_all_store (E : env) (stations : list string) :
  forall w,
    (has_table w -> has_table (snd (Script.collect_all E stations 0 [] w)))
    /\ exists k, (k <= List.length stations)%nat
         /\ connects (snd (Script.collect_all E stations 0 [] w)) = (connects w + k)%nat.
Proof.
  induction stations as [|s rest IH]; intros w.
  - cbn. split; [auto|]. exists 0%nat. split; lia.
  - rewrite collect_all_cons. cbn [fst snd List.length].
    destruct (collect_station_store E s w) as [Ht Hc].
    destruct (IH (snd (Script.collect_station E s w))) as (Ht' & k & Hk & Hc').
    split; [auto|]. rewrite Hc'.
    destruct Hc as [-> | ->]; [exists k | exists (S k)]; split; lia.
Qed.








(* ===================================================================== *)
(** ** The two collectors side by side *)
(* ===================================================================== *)

(** On a table without the unique key, in a transaction that has not
    failed, a departure the store can take is inserted, whatever the table
    holds. *)
Lemma try_insert_accepts (t : table) (name : json) (cat : Z) (dep : json)
    (x : txn) (r : row) :
  natural_key_unique t = false ->
  aborted x = false ->
  row_of name cat dep = Ok r ->
  try_insert (Some t) name cat dep x
  = (Ok tt, {| pending := pending x ++ [r]; aborted := false |}).
Proof.
  intros Hu Ha. unfold row_of, try_insert, execute_insert.
  destruct (insert_params name cat dep) as [p|]; cbn [bind]; [|discriminate].
  destruct (adapt p) as [[[[[st ti] ve] pl] de]|]; cbn [bind]; [|discriminate].
  intros ->. rewrite Ha, Hu. reflexivity.
Qed.

Lemma insert_loops_accept_all (t : table) (name : json) (cat : Z)
    (Hu : natural_key_unique t = false) :
  forall (deps : list json) (rs : list row) (x : txn) (n : Z) (lg : list entry),
    aborted x = false ->
    map (row_of name cat) deps = map Ok rs ->
    Script.insert_loop (Some t) name cat deps x n lg
      = ({| pending := pending x ++ rs; aborted := false |},
         n + Z.of_nat (List.length deps), lg)
    /\ Dag.insert_loop (Some t) name cat deps x n lg
      = ({| pending := pending x ++ rs; aborted := false |},
         n + Z.of_nat (List.length deps), lg).
Proof.
  induction deps as [|dep deps IH]; intros rs x n lg Ha Hm.
  - destruct rs; [|discriminate]. cbn. rewrite app_nil_r, Z.add_0_r.
    destruct x as [p a]. cbn in Ha. subst a. split; reflexivity.
  - destruct rs as [|r rs]; [discriminate|]. cbn [map] in Hm.
    injection Hm as Hr Hm.
    cbn [Script.insert_loop Dag.insert_loop].
    rewrite (try_insert_accepts t name cat dep x r Hu Ha Hr).
    destruct (IH rs {| pending := pending x ++ [r]; aborted := false |}
                 (n + 1) lg eq_refl Hm) as [Hs Hd].
    rewrite Hs, Hd. cbn [pending List.length]. rewrite <- app_assoc. cbn [app].
    replace (n + 1 + Z.of_nat (List.length deps))
      with (n + Z.of_nat (S (List.length deps))) by lia.
    split; reflexivity.
Qed.

(** C9, as stated, fails.  On a table that declares the natural key
    unique, a liveboard that repeats a departure makes the script return 2
    and store the third departure, and the DAG task return 1 and store
    nothing.  On the table [ensure_schema] creates, a departure whose time
    is no numeral makes the script undo the departure before it, which the
    DAG task stores.  When the request fails the script returns 0 and the
    DAG task raises. *)
Lemma C9_counterexample :
  let E := Sample.serving [Sample.ic1; Sample.ic1; Sample.ic2] in
  let s := Script.collect_station E "Brussels-Central" (Sample.keyed []) in
  let d := Dag.fetch_and_store_liveboard E "Brussels-Central" (Sample.keyed []) in
  let E' := Sample.serving [Sample.ic1; Sample.garbled] in
  let w' := snd (Script.ensure_schema E' Sample.fresh) in
  let s' := Script.collect_station E' "Brussels-Central" w' in
  let d' := Dag.fetch_and_store_liveboard E' "Brussels-Central" w' in
  (fst d <> Ok (fst s)
   /\ inserted (fst s) = 2
   /\ Sample.stored_rows (snd s) = [Sample.row2]
   /\ Sample.stored_rows (snd d) = [])
  /\ (Sample.stored_rows (snd s') = []
      /\ Sample.stored_rows (snd d') = [Sample.row1]
      /\ db (snd d') <> db (snd s'))
  /\ (fst (Script.collect_station Sample.offline "Brussels-Central" Sample.fresh)
        = nothing "Brussels-Central"
      /\ fst (Dag.fetch_and_store_liveboard Sample.offline "Brussels-Central" Sample.fresh)
        = Raise RequestException).
Proof. vm_compute. repeat split; try reflexivity; discriminate. Qed.

(* ===================================================================== *)
(** ** Which inputs build a parameter tuple *)
(* ===================================================================== *)

Lemma int_field_is_ok (kvs : list (string * json)) (k : string) :
  is_ok (py_int (match assoc k kvs with Some v => v | None => JInt 0 end))
  = optional kvs k int_like.
Proof. unfold optional, int_like. destruct (assoc k kvs); reflexivity. Qed.

Lemma is_ok_bind {A B : Type} (r : result A) (k : A -> result B) :
  is_ok (bind r k) = match r with Ok a => is_ok (k a) | Raise _ => false end.
Proof. destruct r; reflexivity. Qed.

(** X1: the parameter tuple of a departure builds exactly when the
    departure is an object whose vehicle, when there, is a string and whose
    time, delay and canceled, when there, are taken by [int]; in every
    other case the record raises before the INSERT is sent. *)
Theorem X1_insert_params_builds_iff_well_formed
    (name : json) (cat : Z) (dep : json) :
  is_ok (insert_params name cat dep) = wf_departure dep.
Proof.
  destruct dep as [| | | | |kvs]; try reflexivity.
  unfold insert_params, train_id_of, wf_departure.
  rewrite <- !int_field_is_ok. rewrite !dict_get_obj. cbn [bind].
  unfold optional at 1.
  destruct (assoc "vehicle" kvs) as [[| | |v| |]|]; cbn [py_replace bind is_ok is_str andb];
    try reflexivity.
  - destruct (py_int _); cbn [bind is_ok andb]; [|reflexivity].
    destruct (py_int _); cbn [bind is_ok andb]; [|reflexivity].
    destruct (py_int _); reflexivity.
  - destruct (py_int _); cbn [bind is_ok andb]; [|reflexivity].
    destruct (py_int _); cbn [bind is_ok andb]; [|reflexivity].
    destruct (py_int _); reflexivity.
Qed.

(** X2: the three assignments at the head of both collectors succeed
    exactly on a well-formed response; on any other body the station's
    outer handler runs. *)
Theorem X2_parse_response_succeeds_iff_well_formed (station : string) (data : json) :
  is_ok (parse_response station data) = wf_response data.
Proof.
  destruct data as [| | | | |kvs]; try reflexivity.
  unfold parse_response, raw_departures, response_epoch, display_name, wf_response.
  rewrite !dict_get_obj. cbn [bind]. unfold optional, epoch_like.
  destruct (assoc "departures" kvs) as [[| | | | |d]|]; cbn [dict_get bind is_ok is_obj andb];
    try reflexivity.
  - destruct (assoc "timestamp" kvs) as [ts|].
    + destruct (py_int ts) as [n|]; cbn [bind is_ok]; [|reflexivity].
      destruct (fromtimestamp n); cbn [bind is_ok]; [|reflexivity].
      destruct (assoc "stationinfo" kvs) as [[| | | | |si]|]; reflexivity.
    + cbn [py_int bind]. change (fromtimestamp 0) with (@Ok Z 0). cbn [bind is_ok].
      destruct (assoc "stationinfo" kvs) as [[| | | | |si]|]; reflexivity.
  - destruct (assoc "timestamp" kvs) as [ts|].
    + destruct (py_int ts) as [n|]; cbn [bind is_ok]; [|reflexivity].
      destruct (fromtimestamp n); cbn [bind is_ok]; [|reflexivity].
      destruct (assoc "stationinfo" kvs) as [[| | | | |si]|]; reflexivity.
    + cbn [py_int bind]. change (fromtimestamp 0) with (@Ok Z 0). cbn [bind is_ok].
      destruct (assoc "stationinfo" kvs) as [[| | | | |si]|]; reflexivity.
Qed.

Lemma remove_from_length (old : string) (s : string) :
  forall skip, (String.length (remove_from old skip s) <= String.length s)%nat.
Proof.
  induction s as [|c s IH]; intros skip; [cbn; lia|].
  cbn [remove_from String.length]. destruct skip as [|k].
  - destruct (String.prefix old (String c s)).
    + specialize (IH (Nat.pred (String.length old))). lia.
    + cbn [String.length]. specialize (IH O). lia.
  - specialize (IH k). lia.
Qed.

Lemma remove_from_char_length (old : string) (s : string) :
  forall skip, (char_length (remove_from old skip s) <= char_length s)%nat.
Proof.
  induction s as [|c s IH]; intros skip; [cbn; lia|].
  cbn [remove_from char_length]. destruct skip as [|k].
  - destruct (String.prefix old (String c s)).
    + specialize (IH (Nat.pred (String.length old))). lia.
    + cbn [char_length]. specialize (IH O). lia.
  - specialize (IH k). lia.
Qed.

Lemma char_length_le (s : string) : (char_length s <= String.length s)%nat.
Proof.
  induction s as [|c s IH]; [cbn; lia|].
  cbn [char_length String.length]. destruct (is_continuation c); lia.
Qed.

(** X3: the train id is never longer than the vehicle id it comes from, in
    bytes and in characters, so a vehicle id that fits its VARCHAR(50)
    column gives a train id that fits its own. *)
Theorem X3_train_id_no_longer_than_vehicle
    (kvs : list (string * json)) (v : string)
    (Hveh : assoc "vehicle" kvs = Some (JStr v)) :
  exists t, train_id_of (JObj kvs) = Ok t
    /\ (String.length t <= String.length v)%nat
    /\ ((String.length v <= 50)%nat -> varchar 50 (Some t) = Ok (Some t))
    /\ (char_length t <= char_length v)%nat
    /\ ((char_length v <= 50)%nat -> varchar 50 (Some t) = Ok (Some t)).
Proof.
  exists (str_remove carrier v). split; [now apply train_id_of_vehicle|].
  pose proof (remove_from_length carrier v O) as Hl. fold (str_remove carrier v) in Hl.
  pose proof (remove_from_char_length carrier v O) as Hc.
  fold (str_remove carrier v) in Hc.
  pose proof (char_length_le (str_remove carrier v)) as Hb.
  split; [exact Hl|]. split; [|split; [exact Hc|]].
  - intros Hv. unfold varchar.
    destruct (Nat.leb_spec (char_length (str_remove carrier v)) 50); [reflexivity | lia].
  - intros Hv. unfold varchar.
    destruct (Nat.leb_spec (char_length (str_remove carrier v)) 50); [reflexivity | lia].
Qed.

Lemma X3_train_id_no_longer_than_vehicle_witness :
  exists t, train_id_of Sample.ic1 = Ok t
    /\ (String.length t <= 11)%nat
    /\ varchar 50 (Some t) = Ok (Some t).
Proof.
  destruct (X3_train_id_no_longer_than_vehicle
              [("vehicle", JStr "BE.NMBS.IC1"); ("platform", JStr "4");
               ("time", JStr "1700000000"); ("delay", JStr "60");
               ("canceled", JStr "0"); ("station", JStr "Oostende")]
              "BE.NMBS.IC1" eq_refl) as (t & Ht & Hl & Hv & _).
  exists t. split; [exact Ht|]. split; [exact Hl|]. apply Hv. cbn. lia.
Defined.

(* ===================================================================== *)
(** ** One INSERT *)
(* ===================================================================== *)

(** An INSERT that succeeds ran in a transaction that had not failed, on a
    table that exists, and added the departure's row at the end. *)
Lemma try_insert_ok_inv (d : database) (name : json) (cat : Z) (dep : json)
    (x x' : txn) (u : unit) :
  try_insert d name cat dep x = (Ok u, x') ->
  exists t r,
    d = Some t
    /\ row_of name cat dep = Ok r
    /\ aborted x = false
    /\ (natural_key_unique t && existsb (same_key r) (visible t x)) = false
    /\ x' = {| pending := pending x ++ [r]; aborted := false |}.
Proof.
  unfold try_insert, row_of, execute_insert.
  destruct (insert_params name cat dep) as [p|]; cbn [bind]; [|discriminate].
  destruct (adapt p) as [[[[[st ti] ve] pl] de]|]; cbn [bind]; [|discriminate].
  destruct (aborted x) eqn:Ha; [discriminate|].
  destruct d as [t|]; [|discriminate].
  destruct (coerce p st ti ve pl de) as [r|]; [|discriminate].
  destruct (natural_key_unique t && existsb (same_key r) (visible t x)) eqn:Hk;
    [discriminate|].
  intros H. injection H as _ <-. exists t, r. auto.
Qed.

(** An INSERT that raises adds no row. *)
Lemma try_insert_raise_inv (d : database) (name : json) (cat : Z) (dep : json)
    (x x' : txn) (e : exn) :
  try_insert d name cat dep x = (Raise e, x') ->
  pending x' = pending x /\ (x' = x \/ aborted x' = true).
Proof.
  unfold try_insert, execute_insert.
  destruct (insert_params name cat dep) as [p|].
  2:{ intros H. injection H as _ <-. auto. }
  destruct (adapt p) as [[[[[st ti] ve] pl] de]|].
  2:{ intros H. injection H as _ <-. auto. }
  destruct (aborted x) eqn:Ha.
  { intros H. injection H as _ <-. auto. }
  destruct d as [t|].
  2:{ intros H. injection H as _ <-. auto. }
  destruct (coerce p st ti ve pl de) as [r|].
  2:{ intros H. injection H as _ <-. auto. }
  destruct (natural_key_unique t && existsb (same_key r) (visible t x));
    [|discriminate].
  intros H. injection H as _ <-. auto.
Qed.

(** In a failed transaction every INSERT raises and changes nothing. *)
Lemma try_insert_aborted (d : database) (name : json) (cat : Z) (dep : json) (x : txn) :
  aborted x = true ->
  exists e, try_insert d name cat dep x = (Raise e, x).
Proof.
  intros Ha. unfold try_insert, execute_insert.
  destruct (insert_params name cat dep) as [p|]; [|eauto].
  destruct (adapt p) as [[[[[st ti] ve] pl] de]|]; [|eauto].
  rewrite Ha. eauto.
Qed.

(** A departure the store cannot take raises whatever the transaction. *)
Lemma try_insert_refuses (d : database) (name : json) (cat : Z) (dep : json) (x : txn) :
  storable name cat dep = false ->
  exists e x', try_insert d name cat dep x = (Raise e, x').
Proof.
  unfold storable. intros Hs.
  destruct (try_insert d name cat dep x) as [[u|e] x'] eqn:Ht; [|eauto].
  destruct (try_insert_ok_inv _ _ _ _ _ _ _ Ht) as (t & r & _ & Hr & _).
  rewrite Hr in Hs. discriminate.
Qed.

(** A departure the driver refuses raises and leaves the transaction. *)
Lemma try_insert_client_refused (d : database) (name : json) (cat : Z) (dep : json)
    (x : txn) :
  client_refused name cat dep = true ->
  exists e, try_insert d name cat dep x = (Raise e, x).
Proof.
  unfold client_refused, try_insert, execute_insert.
  destruct (insert_params name cat dep) as [p|]; cbn [bind]; [|eauto].
  destruct (adapt p) as [[[[[st ti] ve] pl] de]|]; [discriminate|eauto].
Qed.

Lemma extend_nil (d : database) : extend d [] = d.
Proof.
  destruct d as [[u rs]|]; [|reflexivity]. cbn. now rewrite app_nil_r.
Qed.

Lemma commit_extend (d : database) (x : txn) :
  commit d x = extend d (if aborted x then [] else pending x).
Proof.
  destruct d as [[u rs]|]; [|reflexivity]. cbn.
  destruct (aborted x); [now rewrite app_nil_r | reflexivity].
Qed.

(* ===================================================================== *)
(** ** The insert loops *)
(* ===================================================================== *)

(** The script's loop: the counter grows by one per record at most, the
    transaction it leaves has not failed and holds no more rows than it
    held plus the records counted, and only debug calls are logged. *)
Lemma script_loop_inv (d : database) (name : json) (cat : Z) :
  forall (deps : list json) (x x' : txn) (n n' : Z) (lg lg' : list entry),
    aborted x = false ->
    Script.insert_loop d name cat deps x n lg = (x', n', lg') ->
    aborted x' = false
    /\ n <= n' <= n + Z.of_nat (List.length deps)
    /\ Z.of_nat (List.length (pending x'))
       <= Z.of_nat (List.length (pending x)) + (n' - n)
    /\ exists dbg, lg' = (lg ++ dbg)%list /\ Forall (fun e => fst e = DEBUG) dbg.
Proof.
  induction deps as [|dep deps IH]; intros x x' n n' lg lg' Ha H.
  - cbn in H. injection H as <- <- <-.
    split; [exact Ha|]. split; [lia|]. split; [lia|].
    exists []. split; [now rewrite app_nil_r | constructor].
  - cbn [Script.insert_loop] in H.
    destruct (try_insert d name cat dep x) as [[u|e] x1] eqn:Ht.
    + destruct (try_insert_ok_inv _ _ _ _ _ _ _ Ht) as (t & r & _ & _ & _ & _ & ->).
      apply IH in H; [|reflexivity]. destruct H as (A & B & C & D).
      cbn [pending] in C. rewrite length_app in C. cbn [List.length] in *.
      split; [exact A|]. split; [lia|]. split; [lia | exact D].
    + assert (H' : exists lg1 dbg1,
                 Script.insert_loop d name cat deps begin n lg1 = (x', n', lg')
                 /\ lg1 = (lg ++ dbg1)%list /\ Forall (fun e => fst e = DEBUG) dbg1).
      { destruct (is_integrity_error e).
        - exists lg, []. rewrite app_nil_r. repeat split; auto.
        - exists (lg ++ [(DEBUG, MSkipping e)])%list, [(DEBUG, MSkipping e)].
          repeat split; auto. }
      destruct H' as (lg1 & dbg1 & H1 & -> & Hd1).
      apply IH in H1; [|reflexivity]. destruct H1 as (A & B & C & (dbg & -> & Hd)).
      change (pending begin) with (@nil row) in C. cbn [List.length] in *.
      split; [exact A|]. split; [lia|]. split; [lia|].
      exists (dbg1 ++ dbg)%list. split; [now rewrite app_assoc|].
      apply Forall_app. auto.
Qed.

(** The DAG's loop: the counter grows by one per record at most; a failed
    transaction stays failed; a transaction that has not failed at the end
    holds the rows it held and one more row per record counted. *)
Lemma dag_loop_inv (d : database) (name : json) (cat : Z) :
  forall (deps : list json) (x x' : txn) (n n' : Z) (lg lg' : list entry),
    Dag.insert_loop d name cat deps x n lg = (x', n', lg') ->
    n <= n' <= n + Z.of_nat (List.length deps)
    /\ (aborted x = true -> aborted x' = true)
    /\ (aborted x' = false ->
        Z.of_nat (List.length (pending x'))
        = Z.of_nat (List.length (pending x)) + (n' - n)).
Proof.
  induction deps as [|dep deps IH]; intros x x' n n' lg lg' H.
  - cbn in H. injection H as <- <- <-. repeat split; try lia; auto.
  - cbn [Dag.insert_loop] in H.
    destruct (try_insert d name cat dep x) as [[u|e] x1] eqn:Ht.
    + destruct (try_insert_ok_inv _ _ _ _ _ _ _ Ht) as (t & r & _ & _ & Hx & _ & ->).
      destruct (IH _ _ _ _ _ _ H) as (A & B & C).
      cbn [pending List.length] in *.
      split; [lia|]. split; [rewrite Hx; discriminate|].
      intros Hf. specialize (C Hf). rewrite length_app in C. cbn [List.length] in C. lia.
    + destruct (try_insert_raise_inv _ _ _ _ _ _ _ Ht) as (Hp & Hx).
      destruct (IH _ _ _ _ _ _ H) as (A & B & C).
      cbn [List.length]. split; [lia|]. split.
      * intros Ha. apply B. destruct Hx as [-> | Hx]; assumption.
      * intros Hf. specialize (C Hf). rewrite Hp in C. lia.
Qed.

(* ===================================================================== *)
(** ** One station, every input *)
(* ===================================================================== *)

(** The two ways [collect_station] ends: without reaching the loop (the
    request, the parsing, the connection or the iteration raised, or there
    were no departures), or after the loop and the commit. *)
Lemma script_station_cases (E : env) (station : string) (w : world) :
  (fst (Script.collect_station E station w) = nothing station
   /\ db (snd (Script.collect_station E station w)) = db w
   /\ xcom (snd (Script.collect_station E station w)) = xcom w
   /\ exists e, log (snd (Script.collect_station E station w)) = (log w ++ [e])%list
                /\ (fst e = WARNING \/ fst e = ERROR))
  \/ (exists cat name deps x n lg,
        Script.insert_loop (db w) name cat deps begin 0 [] = (x, n, lg)
        /\ fst (Script.collect_station E station w)
           = {| cr_station := station; inserted := n; attempted := List.length deps |}
        /\ db (snd (Script.collect_station E station w)) = commit (db w) x
        /\ xcom (snd (Script.collect_station E station w)) = xcom w
        /\ log (snd (Script.collect_station E station w))
           = (log w ++ lg
                ++ [(INFO, MStationDone name n (Z.of_nat (List.length deps)))])%list).
Proof.
  destruct w as [d c l xc].
  unfold Script.collect_station, Script.collect_body, get_db_connection.
  cbn [db connects log xcom].
  destruct (data <- http_get E station ;; parse_response station data)
    as [[[departures cat] name]|e].
  2:{ left. cbn. repeat split. eexists. split; [reflexivity | now right]. }
  destruct (negb (truthy departures)).
  { left. cbn. repeat split. eexists. split; [reflexivity | now left]. }
  destruct (db_connect E c).
  2:{ left. cbn. repeat split. eexists. split; [reflexivity | now right]. }
  destruct (py_iter departures) as [deps|].
  2:{ left. cbn. repeat split. eexists. split; [reflexivity | now right]. }
  destruct (Script.insert_loop d name cat deps begin 0 []) as [[x n] lg] eqn:Hl.
  right. exists cat, name, deps, x, n, lg. cbn. rewrite <- app_assoc.
  repeat split. exact Hl.
Qed.

(** The ways [fetch_and_store_liveboard] ends: it raises, or returns 0 for
    a liveboard without departures, both before any INSERT and any push; or
    it returns after the loop, the commit and the push. *)
Lemma dag_station_cases (E : env) (station : string) (w : world) :
  ((exists e, fst (Dag.fetch_and_store_liveboard E station w) = Raise e)
   /\ db (snd (Dag.fetch_and_store_liveboard E station w)) = db w
   /\ xcom (snd (Dag.fetch_and_store_liveboard E station w)) = xcom w)
  \/ (fst (Dag.fetch_and_store_liveboard E station w) = Ok (nothing station)
      /\ db (snd (Dag.fetch_and_store_liveboard E station w)) = db w
      /\ xcom (snd (Dag.fetch_and_store_liveboard E station w)) = xcom w)
  \/ (exists cat name deps x n lg,
        Dag.insert_loop (db w) name cat deps begin 0 [] = (x, n, lg)
        /\ deps <> []
        /\ fst (Dag.fetch_and_store_liveboard E station w)
           = Ok {| cr_station := station; inserted := n; attempted := List.length deps |}
        /\ db (snd (Dag.fetch_and_store_liveboard E station w)) = commit (db w) x
        /\ xcom (snd (Dag.fetch_and_store_liveboard E station w))
           = (xcom w ++ [("departures_count", n)])%list).
Proof.
  destruct w as [d c l xc].
  unfold Dag.fetch_and_store_liveboard, Dag.fetch_body, get_db_connection.
  cbn [db connects log xcom logging].
  destruct (data <- http_get E station ;; parse_response station data)
    as [[[departures cat] name]|e].
  2:{ left. destruct e; cbn; repeat split; eexists; reflexivity. }
  destruct (truthy departures) eqn:Htr; cbn [negb].
  2:{ right. left. cbn. repeat split. }
  destruct (db_connect E c) as [u|e].
  2:{ left. destruct e; cbn; repeat split; eexists; reflexivity. }
  destruct (py_iter departures) as [deps|e] eqn:Hit.
  2:{ left. destruct e; cbn; repeat split; eexists; reflexivity. }
  destruct (Dag.insert_loop d name cat deps begin 0 []) as [[x n] lg] eqn:Hl.
  right. right. exists cat, name, deps, x, n, lg. cbn.
  split; [exact Hl|]. split; [|repeat split].
  intros ->. destruct departures as [| | |s|xs|kvs]; try discriminate;
    cbn in Hit, Htr; injection Hit as Hit.
  - destruct s; [discriminate Htr | discriminate Hit].
  - subst xs. discriminate Htr.
  - destruct kvs; [discriminate Htr | discriminate Hit].
Qed.

(** X4: whatever the API answers and whatever the table holds, the count a
    collector returns lies between 0 and the number of departures its loop
    ran over. *)
Theorem X4_count_between_zero_and_attempted (E : env) (station : string) (w : world) :
  0 <= inserted (fst (Script.collect_station E station w))
    <= Z.of_nat (attempted (fst (Script.collect_station E station w)))
  /\ forall r, fst (Dag.fetch_and_store_liveboard E station w) = Ok r ->
       0 <= inserted r <= Z.of_nat (attempted r).
Proof.
  split.
  - destruct (script_station_cases E station w)
      as [(-> & _) | (cat & name & deps & x & n & lg & Hl & -> & _)]; [cbn; lia|].
    apply script_loop_inv in Hl; [|reflexivity]. cbn. lia.
  - intros r Hr.
    destruct (dag_station_cases E station w)
      as [([e He] & _) | [(H0 & _) | (cat & name & deps & x & n & lg & Hl & _ & H1 & _)]].
    + rewrite He in Hr. discriminate.
    + rewrite H0 in Hr. injection Hr as <-. cbn. lia.
    + rewrite H1 in Hr. injection Hr as <-. apply dag_loop_inv in Hl. cbn. lia.
Qed.

Lemma collect_station_appends (E : env) (station : string) (w : world) :
  exists new,
    db (snd (Script.collect_station E station w)) = extend (db w) new
    /\ Z.of_nat (List.length new) <= inserted (fst (Script.collect_station E station w)).
Proof.
  destruct (script_station_cases E station w)
    as [(-> & -> & _) | (cat & name & deps & x & n & lg & Hl & -> & -> & _)].
  - exists []. rewrite extend_nil. cbn. split; [reflexivity | lia].
  - apply script_loop_inv in Hl; [|reflexivity].
    destruct Hl as (Ha & _ & Hp & _). exists (pending x).
    rewrite commit_extend, Ha. cbn in *. split; [reflexivity | lia].
Qed.

(** X5: the script only ever adds rows.  The table keeps its declaration
    and the rows it held, in order; the rows added follow them and are no
    more than the count returned. *)
Theorem X5_script_only_appends (E : env) (station : string) (w : world) :
  exists new,
    db (snd (Script.collect_station E station w)) = extend (db w) new
    /\ Z.of_nat (List.length new) <= inserted (fst (Script.collect_station E station w)).
Proof. apply collect_station_appends. Qed.

Lemma dict_get_error (d : json) (k : string) (dflt : json) (e : exn) :
  dict_get d k dflt = Raise e -> server_error e = false.
Proof. destruct d; cbn; intros H; try discriminate; now injection H as <-. Qed.

Lemma py_int_error (v : json) (e : exn) :
  py_int v = Raise e -> server_error e = false.
Proof.
  destruct v as [| | |s| |]; cbn; intros H; try discriminate;
    try (now injection H as <-).
  destruct (int_of_string s); [discriminate | now injection H as <-].
Qed.

Lemma py_replace_error (v : json) (old : string) (e : exn) :
  py_replace v old = Raise e -> server_error e = false.
Proof. destruct v; cbn; intros H; try discriminate; now injection H as <-. Qed.

(** Building the tuple raises no server error. *)
Lemma insert_params_error (name : json) (cat : Z) (dep : json) (e : exn) :
  insert_params name cat dep = Raise e -> server_error e = false.
Proof.
  unfold insert_params, train_id_of.
  destruct (dict_get dep "vehicle" (JStr "")) as [v|e0] eqn:H0; cbn [bind].
  2:{ intros H. injection H as <-. exact (dict_get_error _ _ _ _ H0). }
  destruct (py_replace v carrier) as [tid|e1] eqn:H1; cbn [bind].
  2:{ intros H. injection H as <-. exact (py_replace_error _ _ _ H1). }
  destruct (dict_get dep "platform" (JStr "")) as [pl|e2] eqn:H2; cbn [bind].
  2:{ intros H. injection H as <-. exact (dict_get_error _ _ _ _ H2). }
  destruct (dict_get dep "time" (JInt 0)) as [t0|e3] eqn:H3; cbn [bind].
  2:{ intros H. injection H as <-. exact (dict_get_error _ _ _ _ H3). }
  destruct (py_int t0) as [t|e4] eqn:H4; cbn [bind].
  2:{ intros H. injection H as <-. exact (py_int_error _ _ H4). }
  destruct (dict_get dep "delay" (JInt 0)) as [d0|e5] eqn:H5; cbn [bind].
  2:{ intros H. injection H as <-. exact (dict_get_error _ _ _ _ H5). }
  destruct (py_int d0) as [dl|e6] eqn:H6; cbn [bind].
  2:{ intros H. injection H as <-. exact (py_int_error _ _ H6). }
  destruct (dict_get dep "canceled" (JInt 0)) as [c0|e7] eqn:H7; cbn [bind].
  2:{ intros H. injection H as <-. exact (dict_get_error _ _ _ _ H7). }
  destruct (py_int c0) as [c|e8] eqn:H8; cbn [bind].
  2:{ intros H. injection H as <-. exact (py_int_error _ _ H8). }
  destruct (dict_get dep "station" (JStr "")) as [de|e9] eqn:H9; cbn [bind].
  2:{ intros H. injection H as <-. exact (dict_get_error _ _ _ _ H9). }
  discriminate.
Qed.

Lemma adapt_text_error (v : json) (e : exn) :
  adapt_text v = Raise e -> server_error e = false.
Proof.
  destruct v as [| | |s| |]; cbn; intros H; try discriminate;
    try (now injection H as <-).
  unfold adapt_str in H. destruct (has_nul s); cbn in H; [|discriminate].
  now injection H as <-.
Qed.

Lemma adapt_str_error (s : string) (e : exn) :
  adapt_str s = Raise e -> server_error e = false.
Proof.
  unfold adapt_str. destruct (has_nul s); intros H; [|discriminate].
  now injection H as <-.
Qed.

(** The driver raises no server error. *)
Lemma adapt_error (p : params) (e : exn) :
  adapt p = Raise e -> server_error e = false.
Proof.
  unfold adapt.
  destruct (adapt_text (p_station p)) eqn:H0; cbn [bind].
  2:{ intros H. injection H as <-. exact (adapt_text_error _ _ H0). }
  destruct (adapt_str (p_train_id p)) eqn:H1; cbn [bind].
  2:{ intros H. injection H as <-. exact (adapt_str_error _ _ H1). }
  destruct (adapt_text (p_vehicle p)) eqn:H2; cbn [bind].
  2:{ intros H. injection H as <-. exact (adapt_text_error _ _ H2). }
  destruct (adapt_text (p_platform p)) eqn:H3; cbn [bind].
  2:{ intros H. injection H as <-. exact (adapt_text_error _ _ H3). }
  destruct (adapt_text (p_destination p)) eqn:H4; cbn [bind].
  2:{ intros H. injection H as <-. exact (adapt_text_error _ _ H4). }
  discriminate.
Qed.

Lemma varchar_error (n : nat) (v : option string) (e : exn) :
  varchar n v = Raise e -> server_error e = true.
Proof.
  destruct v as [s|]; cbn; [|discriminate].
  destruct (char_length s <=? n)%nat; [discriminate|].
  destruct (all_blank (drop_chars n s)); [discriminate|].
  intros H. now injection H as <-.
Qed.

(** What the server refuses, it refuses with a server error. *)
Lemma coerce_error (p : params) (st : option string) (ti : string)
    (ve pl de : option string) (e : exn) :
  coerce p st ti ve pl de = Raise e -> server_error e = true.
Proof.
  unfold coerce.
  destruct (varchar 100 st) as [st'|] eqn:H0; cbn [bind].
  2:{ intros H. injection H as <-. exact (varchar_error _ _ _ H0). }
  destruct (varchar 50 (Some ti)) as [ti'|] eqn:H1; cbn [bind].
  2:{ intros H. injection H as <-. exact (varchar_error _ _ _ H1). }
  destruct (varchar 50 ve) as [ve'|] eqn:H2; cbn [bind].
  2:{ intros H. injection H as <-. exact (varchar_error _ _ _ H2). }
  destruct (varchar 10 pl) as [pl'|] eqn:H3; cbn [bind].
  2:{ intros H. injection H as <-. exact (varchar_error _ _ _ H3). }
  unfold to_timestamp.
  destruct ((-210866803200 <=? p_time p) && (p_time p <? 9224318016000)); cbn [bind].
  2:{ intros H. now injection H as <-. }
  unfold int4.
  destruct ((- 2 ^ 31 <=? p_delay p) && (p_delay p <? 2 ^ 31)); cbn [bind].
  2:{ intros H. now injection H as <-. }
  destruct (varchar 100 de) as [de'|] eqn:H6; cbn [bind].
  2:{ intros H. injection H as <-. exact (varchar_error _ _ _ H6). }
  destruct st' as [s0|]; cbn [not_null bind].
  2:{ intros H. now injection H as <-. }
  destruct ti' as [t0|]; cbn [not_null bind].
  2:{ intros H. now injection H as <-. }
  discriminate.
Qed.

(** An INSERT that raises in a transaction that had not failed: either the
    server refused it, with a server error, and the transaction has failed;
    or the record never reached the server and the transaction is as it
    was. *)
Lemma try_insert_raise_class (d : database) (name : json) (cat : Z) (dep : json)
    (x x' : txn) (e : exn) :
  aborted x = false ->
  try_insert d name cat dep x = (Raise e, x') ->
  (server_error e = true /\ aborted x' = true)
  \/ (server_error e = false /\ x' = x).
Proof.
  intros Ha. unfold try_insert, execute_insert.
  destruct (insert_params name cat dep) as [p|e0] eqn:Hp.
  2:{ intros H. injection H as <- <-. right. split; [|reflexivity].
      exact (insert_params_error _ _ _ _ Hp). }
  destruct (adapt p) as [[[[[st ti] ve] pl] de]|e0] eqn:Had.
  2:{ intros H. injection H as <- <-. right. split; [|reflexivity].
      exact (adapt_error _ _ Had). }
  rewrite Ha. destruct d as [t|].
  2:{ intros H. injection H as <- <-. left. split; reflexivity. }
  destruct (coerce p st ti ve pl de) as [r|e0] eqn:Hc.
  2:{ intros H. injection H as <- <-. left. split; [|reflexivity].
      exact (coerce_error _ _ _ _ _ _ _ Hc). }
  destruct (natural_key_unique t && existsb (same_key r) (visible t x));
    [|discriminate].
  intros H. injection H as <- <-. left. split; reflexivity.
Qed.

(** In the DAG's loop the transaction has failed exactly when the debug
    calls so far show a record skipped with a server error. *)
Lemma dag_loop_failed_iff_logged (d : database) (name : json) (cat : Z) :
  forall (deps : list json) (x x' : txn) (n n' : Z) (lg lg' : list entry),
    aborted x = existsb server_skip lg ->
    Dag.insert_loop d name cat deps x n lg = (x', n', lg') ->
    aborted x' = existsb server_skip lg'.
Proof.
  induction deps as [|dep deps IH]; intros x x' n n' lg lg' Hi H.
  - cbn in H. now injection H as <- _ <-.
  - cbn [Dag.insert_loop] in H.
    destruct (try_insert d name cat dep x) as [[u|e] x1] eqn:Ht.
    + destruct (try_insert_ok_inv _ _ _ _ _ _ _ Ht) as (t & r & _ & _ & Ha & _ & ->).
      apply (IH _ _ _ _ _ _) in H; [exact H|]. cbn [aborted]. now rewrite <- Hi.
    + apply (IH _ _ _ _ _ _) in H; [exact H|].
      rewrite existsb_app. cbn [existsb server_skip]. rewrite orb_false_r.
      destruct (aborted x) eqn:Ha.
      * destruct (try_insert_aborted d name cat dep x Ha) as [e' Ht'].
        rewrite Ht' in Ht. injection Ht as _ <-. now rewrite Ha, <- Hi.
      * destruct (try_insert_raise_class _ _ _ _ _ _ _ Ha Ht) as [[He Hx] | [He ->]].
        -- rewrite Hx, He. now rewrite orb_true_r.
        -- rewrite He, Ha, orb_false_r. exact Hi.
Qed.

(** X6: the DAG task adds all the rows it counted or none, and its log
    tells which.  The table keeps its declaration and the rows it held.
    When the task raises nothing is added.  When it returns and its logging
    calls show a record skipped with a server error (the table missing, a
    value refused by a column, a constraint violated, the transaction
    failed before), nothing is added either.  Otherwise exactly as many
    rows are added as the count returned. *)
Theorem X6_dag_adds_all_counted_or_nothing (E : env) (station : string) (w : world) :
  exists new added,
    db (snd (Dag.fetch_and_store_liveboard E station w)) = extend (db w) new
    /\ log (snd (Dag.fetch_and_store_liveboard E station w)) = (log w ++ added)%list
    /\ match fst (Dag.fetch_and_store_liveboard E station w) with
       | Raise _ => new = []
       | Ok r =>
           if existsb server_skip added then new = []
           else Z.of_nat (List.length new) = inserted r
       end.
Proof.
  destruct w as [d c l xc].
  unfold Dag.fetch_and_store_liveboard, Dag.fetch_body, get_db_connection.
  cbn [db connects log xcom logging].
  destruct (data <- http_get E station ;; parse_response station data)
    as [[[departures cat] name]|e].
  2:{ exists [], [(INFO, MFetching station);
                  (ERROR, match e with
                          | RequestException => MApiFailed station RequestException
                          | _ => MUnexpected station e
                          end)].
      rewrite extend_nil. destruct e; cbn; rewrite <- app_assoc; auto. }
  destruct (negb (truthy departures)).
  { exists [], [(INFO, MFetching station); (WARNING, MNoDepartures station)].
    rewrite extend_nil. cbn. rewrite <- app_assoc. auto. }
  destruct (db_connect E c) as [u|e].
  2:{ exists [], [(INFO, MFetching station);
                  (ERROR, match e with
                          | RequestException => MApiFailed station RequestException
                          | _ => MUnexpected station e
                          end)].
      rewrite extend_nil. destruct e; cbn; rewrite <- app_assoc; auto. }
  destruct (py_iter departures) as [deps|e].
  2:{ exists [], [(INFO, MFetching station);
                  (ERROR, match e with
                          | RequestException => MApiFailed station RequestException
                          | _ => MUnexpected station e
                          end)].
      rewrite extend_nil. destruct e; cbn; rewrite <- app_assoc; auto. }
  destruct (Dag.insert_loop d name cat deps begin 0 []) as [[x n] lg] eqn:Hl.
  pose proof (dag_loop_failed_iff_logged d name cat deps begin x 0 n [] lg eq_refl Hl)
    as Hlog.
  apply dag_loop_inv in Hl. destruct Hl as (_ & _ & Hp).
  exists (if aborted x then [] else pending x),
    ((INFO, MFetching station) :: lg
       ++ [(INFO, MStationDone name n (Z.of_nat (List.length deps)))])%list.
  cbn [fst snd db log set_db add_log logging xcom_push].
  split; [apply commit_extend|]. split.
  { rewrite <- !app_assoc. reflexivity. }
  cbn [existsb server_skip orb]. rewrite existsb_app. cbn [existsb server_skip].
  rewrite orb_false_r, <- Hlog. cbn [inserted].
  destruct (aborted x); [reflexivity|]. specialize (Hp eq_refl). cbn in Hp. lia.
Qed.

(** X7: a call of the script's [collect_station] ends with exactly one
    logging call above debug level, a warning (no departures), an error
    (the outer handler) or the closing info line; before it come only the
    debug calls of the loop. *)
Theorem X7_script_one_closing_log_line (E : env) (station : string) (w : world) :
  exists dbg e,
    log (snd (Script.collect_station E station w)) = (log w ++ dbg ++ [e])%list
    /\ Forall (fun d => fst d = DEBUG) dbg
    /\ fst e <> DEBUG.
Proof.
  destruct (script_station_cases E station w)
    as [(_ & _ & _ & e & -> & He) | (cat & name & deps & x & n & lg & Hl & _ & _ & _ & ->)].
  - exists [], e. cbn. split; [reflexivity|]. split; [constructor|].
    destruct He as [-> | ->]; discriminate.
  - apply script_loop_inv in Hl; [|reflexivity].
    destruct Hl as (_ & _ & _ & dbg & -> & Hd).
    exists dbg, (INFO, MStationDone name n (Z.of_nat (List.length deps))).
    cbn. split; [reflexivity|]. split; [exact Hd | discriminate].
Qed.

(** X8: the DAG task pushes to XCom at most once, and what it pushes under
    [departures_count] is the count it returns.  It pushes nothing when it
    raises, and nothing when the liveboard has no departures: the task then
    returns 0 without a push. *)
Theorem X8_dag_xcom_push (E : env) (station : string) (w : world) :
  match fst (Dag.fetch_and_store_liveboard E station w) with
  | Raise _ => xcom (snd (Dag.fetch_and_store_liveboard E station w)) = xcom w
  | Ok r =>
      if (attempted r =? 0)%nat
      then inserted r = 0
           /\ xcom (snd (Dag.fetch_and_store_liveboard E station w)) = xcom w
      else xcom (snd (Dag.fetch_and_store_liveboard E station w))
           = (xcom w ++ [("departures_count", inserted r)])%list
  end.
Proof.
  destruct (dag_station_cases E station w)
    as [([e ->] & _ & ->) | [(-> & _ & ->) | (cat & name & deps & x & n & lg & _ & Hne & -> & _ & ->)]].
  - reflexivity.
  - cbn. auto.
  - cbn. destruct deps; [contradiction | reflexivity].
Qed.

Lemma X4_count_between_zero_and_attempted_witness :
  exists r, fst (Dag.fetch_and_store_liveboard (Sample.serving [Sample.ic1; Sample.garbled])
                   "Brussels-Central" (Sample.keyed [])) = Ok r
            /\ 0 <= inserted r <= Z.of_nat (attempted r).
Proof.
  eexists. split; [reflexivity|].
  apply (X4_count_between_zero_and_attempted
           (Sample.serving [Sample.ic1; Sample.garbled]) "Brussels-Central"
           (Sample.keyed [])).
  reflexivity.
Defined.

(* ===================================================================== *)
(** ** A table that declares the natural key unique *)
(* ===================================================================== *)

Lemma same_key_sym (a b : row) : same_key a b = same_key b a.
Proof.
  unfold same_key.
  rewrite (String.eqb_sym (station a)), (String.eqb_sym (train_id a)),
    (Z.eqb_sym (scheduled_time a)).
  reflexivity.
Qed.

Lemma keys_distinct_snoc (rs : list row) (r : row) :
  keys_distinct (rs ++ [r]) = keys_distinct rs && negb (existsb (same_key r) rs).
Proof.
  induction rs as [|a rs IH]; [reflexivity|].
  cbn [app keys_distinct existsb]. rewrite IH, existsb_app. cbn [existsb].
  rewrite (same_key_sym r a).
  destruct (same_key a r), (existsb (same_key a) rs), (keys_distinct rs),
    (existsb (same_key r) rs); reflexivity.
Qed.

Lemma keys_distinct_app_l (rs new : list row) :
  keys_distinct (rs ++ new) = true -> keys_distinct rs = true.
Proof.
  induction rs as [|a rs IH]; [reflexivity|].
  cbn [app keys_distinct]. rewrite existsb_app, !andb_true_iff, negb_true_iff.
  intros [Ha Hr]. apply orb_false_iff in Ha. destruct Ha as [Ha _].
  rewrite Ha. auto.
Qed.

(** An INSERT that succeeds on a keyed table keeps the keys distinct. *)
Lemma try_insert_keeps_keys (t : table) (name : json) (cat : Z) (dep : json)
    (x x' : txn) (u : unit) :
  natural_key_unique t = true ->
  keys_distinct (visible t x) = true ->
  try_insert (Some t) name cat dep x = (Ok u, x') ->
  keys_distinct (visible t x') = true /\ aborted x' = false.
Proof.
  intros Hu Hk Ht.
  destruct (try_insert_ok_inv _ _ _ _ _ _ _ Ht) as (t0 & r & Et & _ & _ & Hn & ->).
  injection Et as <-. rewrite Hu in Hn. cbn [andb] in Hn.
  unfold visible in *. cbn [pending]. rewrite app_assoc, keys_distinct_snoc, Hk, Hn.
  auto.
Qed.

Lemma script_loop_keeps_keys (t : table) (name : json) (cat : Z)
    (Hu : natural_key_unique t = true) (Hrows : keys_distinct (rows t) = true) :
  forall (deps : list json) (x x' : txn) (n n' : Z) (lg lg' : list entry),
    keys_distinct (visible t x) = true ->
    Script.insert_loop (Some t) name cat deps x n lg = (x', n', lg') ->
    keys_distinct (visible t x') = true.
Proof.
  induction deps as [|dep deps IH]; intros x x' n n' lg lg' Hk H.
  - cbn in H. now injection H as <- _ _.
  - cbn [Script.insert_loop] in H.
    destruct (try_insert (Some t) name cat dep x) as [[u|e] x1] eqn:Ht.
    + destruct (try_insert_keeps_keys _ _ _ _ _ _ _ Hu Hk Ht) as [Hk1 _].
      exact (IH _ _ _ _ _ _ Hk1 H).
    + assert (Hb : keys_distinct (visible t (rollback x1)) = true).
      { unfold visible. cbn. now rewrite app_nil_r. }
      destruct (is_integrity_error e); exact (IH _ _ _ _ _ _ Hb H).
Qed.

Lemma dag_loop_keeps_keys (t : table) (name : json) (cat : Z)
    (Hu : natural_key_unique t = true) :
  forall (deps : list json) (x x' : txn) (n n' : Z) (lg lg' : list entry),
    keys_distinct (visible t x) = true ->
    Dag.insert_loop (Some t) name cat deps x n lg = (x', n', lg') ->
    keys_distinct (visible t x') = true.
Proof.
  induction deps as [|dep deps IH]; intros x x' n n' lg lg' Hk H.
  - cbn in H. now injection H as <- _ _.
  - cbn [Dag.insert_loop] in H.
    destruct (try_insert (Some t) name cat dep x) as [[u|e] x1] eqn:Ht.
    + destruct (try_insert_keeps_keys _ _ _ _ _ _ _ Hu Hk Ht) as [Hk1 _].
      exact (IH _ _ _ _ _ _ Hk1 H).
    + destruct (try_insert_raise_inv _ _ _ _ _ _ _ Ht) as [Hp _].
      assert (Hk1 : keys_distinct (visible t x1) = true).
      { unfold visible in *. now rewrite Hp. }
      exact (IH _ _ _ _ _ _ Hk1 H).
Qed.

Lemma commit_keeps_keys (t : table) (x : txn) :
  keys_distinct (rows t) = true ->
  keys_distinct (visible t x) = true ->
  exists t', commit (Some t) x = Some t'
    /\ natural_key_unique t' = natural_key_unique t
    /\ keys_distinct (rows t') = true.
Proof.
  intros Hr Hv. cbn. destruct (aborted x); eexists; (split; [reflexivity|]); auto.
Qed.

(** X9: when the table declares the natural key unique and no two of its
    rows share their key, no collection breaks that: after the script's
    [collect_station] and after the DAG task, whatever the API answered,
    the table still declares the key and its rows still have distinct
    keys. *)
Theorem X9_keyed_table_stays_distinct
    (E : env) (station : string) (w : world) (t : table)
    (Htable : db w = Some t)
    (Hkeyed : natural_key_unique t = true)
    (Hdistinct : keys_distinct (rows t) = true) :
  (exists t', db (snd (Script.collect_station E station w)) = Some t'
     /\ natural_key_unique t' = true /\ keys_distinct (rows t') = true)
  /\ (exists t', db (snd (Dag.fetch_and_store_liveboard E station w)) = Some t'
     /\ natural_key_unique t' = true /\ keys_distinct (rows t') = true).
Proof.
  assert (Hb : keys_distinct (visible t begin) = true).
  { unfold visible. cbn. now rewrite app_nil_r. }
  split.
  - destruct (script_station_cases E station w)
      as [(_ & -> & _) | (cat & name & deps & x & n & lg & Hl & _ & -> & _)].
    + exists t. auto.
    + rewrite Htable in *.
      pose proof (script_loop_keeps_keys t name cat Hkeyed Hdistinct _ _ _ _ _ _ _ Hb Hl) as Hk.
      destruct (commit_keeps_keys t x Hdistinct Hk) as (t' & -> & Hu & Hd).
      exists t'. rewrite Hu. auto.
  - destruct (dag_station_cases E station w)
      as [(_ & -> & _) | [(_ & -> & _) | (cat & name & deps & x & n & lg & Hl & _ & _ & -> & _)]].
    + exists t. auto.
    + exists t. auto.
    + rewrite Htable in *.
      pose proof (dag_loop_keeps_keys t name cat Hkeyed _ _ _ _ _ _ _ Hb Hl) as Hk.
      destruct (commit_keeps_keys t x Hdistinct Hk) as (t' & -> & Hu & Hd).
      exists t'. rewrite Hu. auto.
Qed.

Lemma X9_keyed_table_stays_distinct_witness :
  let E := Sample.serving [Sample.ic1; Sample.ic1; Sample.ic2] in
  let w := Sample.keyed [Sample.row2] in
  (exists t', db (snd (Script.collect_station E "Brussels-Central" w)) = Some t'
     /\ natural_key_unique t' = true /\ keys_distinct (rows t') = true)
  /\ (exists t', db (snd (Dag.fetch_and_store_liveboard E "Brussels-Central" w)) = Some t'
     /\ natural_key_unique t' = true /\ keys_distinct (rows t') = true).
Proof.
  intros E w.
  apply (X9_keyed_table_stays_distinct E "Brussels-Central" w
           {| natural_key_unique := true; rows := [Sample.row2] |});
    reflexivity.
Defined.

(* ===================================================================== *)
(** ** A refused record in the batch *)
(* ===================================================================== *)

Lemma script_loop_app (d : database) (name : json) (cat : Z) (post : list json) :
  forall (pre : list json) (x : txn) (n : Z) (lg : list entry),
    Script.insert_loop d name cat (pre ++ post) x n lg
    = let '(x1, n1, lg1) := Script.insert_loop d name cat pre x n lg in
      Script.insert_loop d name cat post x1 n1 lg1.
Proof.
  induction pre as [|dep pre IH]; intros x n lg; [reflexivity|].
  cbn [app Script.insert_loop].
  destruct (try_insert d name cat dep x) as [[u|e] x1]; [apply IH|].
  destruct (is_integrity_error e); apply IH.
Qed.

Lemma storable_rows_of (name : json) (cat : Z) (deps : list json) :
  forallb (storable name cat) deps = true ->
  map (row_of name cat) deps = map Ok (rows_of name cat deps)
  /\ List.length (rows_of name cat deps) = List.length deps.
Proof.
  induction deps as [|dep deps IH]; [auto|].
  cbn [forallb]. intros H. apply andb_true_iff in H. destruct H as [Hd Hr].
  destruct (IH Hr) as [Hm Hl]. unfold storable in Hd.
  unfold rows_of in *. cbn [flat_map map].
  destruct (row_of name cat dep) as [r|]; [|discriminate].
  cbn [app map List.length]. now rewrite Hm, Hl.
Qed.

(** After a record the store cannot take, the script's loop goes on with
    an empty transaction and the count it had reached. *)
Lemma script_loop_after_refused_count (d : database) (name : json) (cat : Z)
    (pre : list json) (bad : json) (post : list json) (x : txn) (n : Z)
    (lg : list entry) :
  storable name cat bad = false ->
  exists lg1,
    Script.insert_loop d name cat (pre ++ bad :: post) x n lg
    = Script.insert_loop d name cat post begin
        (snd (fst (Script.insert_loop d name cat pre x n lg))) lg1.
Proof.
  intros Hs. rewrite script_loop_app.
  destruct (Script.insert_loop d name cat pre x n lg) as [[x1 n1] lg1].
  cbn [Script.insert_loop fst snd].
  destruct (try_insert_refuses d name cat bad x1 Hs) as (e & x' & ->).
  destruct (is_integrity_error e); eauto.
Qed.

(** X10: in the script, a record the store cannot take undoes every record
    before it in the batch, and the count keeps them.  When the departures
    after it can all be stored, on a table without the unique key, the
    batch leaves exactly those later departures in the table, and the count
    returned is their number plus the number of records inserted before the
    refused one: when the departures before it can all be stored too, the
    count is the number of all the departures but the refused one, although
    only the later ones are in the table.  In particular a refused last
    record leaves the table as it was. *)
Theorem X10_script_keeps_only_records_after_refused
    (E : env) (station : string) (w : world) (t : table) (data : json)
    (cat : Z) (name : json) (pre : list json) (bad : json) (post : list json)
    (Hget : http_get E station = Ok data)
    (Hparse : parse_response station data = Ok (JArr (pre ++ bad :: post), cat, name))
    (Hconn : db_connect E (connects w) = Ok tt)
    (Htable : db w = Some t)
    (Hplain : natural_key_unique t = false)
    (Hbad : storable name cat bad = false)
    (Hpost : forallb (storable name cat) post = true) :
  db (snd (Script.collect_station E station w)) = extend (db w) (rows_of name cat post)
  /\ Z.of_nat (List.length post)
     <= inserted (fst (Script.collect_station E station w))
     <= Z.of_nat (List.length pre + List.length post)
  /\ inserted (fst (Script.collect_station E station w))
     = snd (fst (Script.insert_loop (db w) name cat pre begin 0 []))
       + Z.of_nat (List.length post)
  /\ (forallb (storable name cat) pre = true ->
      inserted (fst (Script.collect_station E station w))
      = Z.of_nat (List.length pre + List.length post))
  /\ (post = [] -> db (snd (Script.collect_station E station w)) = db w).
Proof.
  assert (Hdb : db (snd (Script.collect_station E station w))
                = extend (db w) (rows_of name cat post)
                /\ inserted (fst (Script.collect_station E station w))
                   = snd (fst (Script.insert_loop (db w) name cat pre begin 0 []))
                     + Z.of_nat (List.length post)).
  { unfold Script.collect_station, Script.collect_body, get_db_connection.
    rewrite Hget. cbn [bind]. rewrite Hparse.
    assert (Htr : truthy (JArr (pre ++ bad :: post)) = true) by (destruct pre; reflexivity).
    rewrite Htr. cbn [negb py_iter]. rewrite Hconn. cbn [db]. rewrite Htable.
    destruct (script_loop_after_refused_count (Some t) name cat pre bad post begin 0 []
                Hbad) as (lg1 & ->).
    destruct (storable_rows_of name cat post Hpost) as [Hm Hl].
    destruct (insert_loops_accept_all t name cat Hplain post _ begin
                (snd (fst (Script.insert_loop (Some t) name cat pre begin 0 [])))
                lg1 eq_refl Hm) as [-> _].
    cbn. rewrite Hplain. split; reflexivity. }
  destruct Hdb as [Hdb Hn].
  assert (Hb : 0 <= snd (fst (Script.insert_loop (db w) name cat pre begin 0 []))
               <= Z.of_nat (List.length pre)).
  { destruct (Script.insert_loop (db w) name cat pre begin 0 []) as [[x1 n1] lg1] eqn:Hl.
    apply script_loop_inv in Hl; [|reflexivity]. cbn. lia. }
  split; [exact Hdb|]. split; [lia|]. split; [exact Hn|]. split.
  - intros Hpre. rewrite Hn, Htable.
    destruct (storable_rows_of name cat pre Hpre) as [Hm _].
    destruct (insert_loops_accept_all t name cat Hplain pre _ begin 0 [] eq_refl Hm)
      as [-> _].
    cbn. lia.
  - intros ->. rewrite Hdb. apply extend_nil.
Qed.

Lemma X10_script_keeps_only_records_after_refused_witness :
  let E := Sample.serving [Sample.ic1; Sample.garbled; Sample.ic2] in
  let w := snd (Script.ensure_schema E Sample.fresh) in
  db (snd (Script.collect_station E "Brussels-Central" w))
    = Some {| natural_key_unique := false; rows := [Sample.row2] |}
  /\ inserted (fst (Script.collect_station E "Brussels-Central" w)) = 2.
Proof.
  intros E w.
  destruct (X10_script_keeps_only_records_after_refused E "Brussels-Central" w
              {| natural_key_unique := false; rows := [] |}
              (Sample.liveboard [Sample.ic1; Sample.garbled; Sample.ic2])
              1700000100 (JStr "Brussels-Central")
              [Sample.ic1] Sample.garbled [Sample.ic2]
              eq_refl eq_refl eq_refl eq_refl eq_refl eq_refl eq_refl)
    as (Hdb & _ & _ & Hn & _).
  split; [rewrite Hdb; reflexivity | exact (Hn eq_refl)].
Defined.

Lemma dag_loop_skips_client_refused (t : table) (name : json) (cat : Z)
    (Hu : natural_key_unique t = false) :
  forall (deps : list json) (x : txn) (n : Z) (lg : list entry),
    aborted x = false ->
    forallb (fun dep => storable name cat dep || client_refused name cat dep) deps = true ->
    exists lg',
      Dag.insert_loop (Some t) name cat deps x n lg
      = ({| pending := pending x ++ rows_of name cat deps; aborted := false |},
         n + Z.of_nat (List.length (rows_of name cat deps)), lg').
Proof.
  induction deps as [|dep deps IH]; intros x n lg Ha H.
  - exists lg. cbn. rewrite app_nil_r, Z.add_0_r. destruct x as [p a]. cbn in Ha.
    now subst a.
  - cbn [forallb] in H. apply andb_true_iff in H. destruct H as [Hd Hr].
    cbn [Dag.insert_loop]. unfold rows_of. cbn [flat_map]. fold (rows_of name cat deps).
    unfold storable in Hd. destruct (row_of name cat dep) as [r|e] eqn:Hrow.
    + rewrite (try_insert_accepts t name cat dep x r Hu Ha Hrow).
      destruct (IH {| pending := pending x ++ [r]; aborted := false |} (n + 1) lg
                  eq_refl Hr) as [lg' ->].
      exists lg'. cbn [pending app]. rewrite <- app_assoc. cbn [app List.length].
      f_equal. f_equal. lia.
    + cbn [is_ok orb] in Hd.
      destruct (try_insert_client_refused (Some t) name cat dep x Hd) as [e' ->].
      destruct (IH x n (lg ++ [(DEBUG, MSkipping e')])%list Ha Hr) as [lg' ->].
      exists lg'. reflexivity.
Qed.

(** X11: in the DAG task, a record refused before it reaches the server
    (its parameter tuple does not build, or the driver cannot adapt a
    parameter) is skipped alone.  On a table without the unique key, when
    every departure is either storable or refused that way, the task
    stores the storable ones, in order, and returns their number. *)
Theorem X11_dag_skips_client_refused_record_alone
    (E : env) (station : string) (w : world) (t : table) (data : json)
    (cat : Z) (name : json) (deps : list json)
    (Hget : http_get E station = Ok data)
    (Hparse : parse_response station data = Ok (JArr deps, cat, name))
    (Hconn : db_connect E (connects w) = Ok tt)
    (Htable : db w = Some t)
    (Hplain : natural_key_unique t = false)
    (Hdeps : forallb (fun dep => storable name cat dep || client_refused name cat dep)
               deps = true) :
  fst (Dag.fetch_and_store_liveboard E station w)
    = Ok {| cr_station := station;
            inserted := Z.of_nat (List.length (rows_of name cat deps));
            attempted := List.length deps |}
  /\ db (snd (Dag.fetch_and_store_liveboard E station w))
     = extend (db w) (rows_of name cat deps).
Proof.
  unfold Dag.fetch_and_store_liveboard, Dag.fetch_body, get_db_connection.
  rewrite Hget. cbn [bind]. rewrite Hparse.
  destruct deps as [|dep deps].
  - cbn. rewrite Htable. cbn. rewrite app_nil_r. destruct t as [u rs].
    split; reflexivity.
  - cbn [truthy negb py_iter logging connects db]. rewrite Hconn, Htable.
    destruct (dag_loop_skips_client_refused t name cat Hplain (dep :: deps) begin 0 []
                eq_refl Hdeps) as [lg' ->].
    cbn. rewrite Hplain. split; reflexivity.
Qed.

Lemma X11_dag_skips_client_refused_record_alone_witness :
  let E := Sample.serving [Sample.ic1; Sample.garbled; Sample.ic2] in
  let w := snd (Script.ensure_schema E Sample.fresh) in
  fst (Dag.fetch_and_store_liveboard E "Brussels-Central" w)
    = Ok {| cr_station := "Brussels-Central"; inserted := 2; attempted := 3 |}
  /\ db (snd (Dag.fetch_and_store_liveboard E "Brussels-Central" w))
     = Some {| natural_key_unique := false; rows := [Sample.row1; Sample.row2] |}.
Proof.
  intros E w.
  destruct (X11_dag_skips_client_refused_record_alone E "Brussels-Central" w
              {| natural_key_unique := false; rows := [] |}
              (Sample.liveboard [Sample.ic1; Sample.garbled; Sample.ic2])
              1700000100 (JStr "Brussels-Central")
              [Sample.ic1; Sample.garbled; Sample.ic2]
              eq_refl eq_refl eq_refl eq_refl eq_refl eq_refl)
    as (Hr & Hdb).
  split; [rewrite Hr; reflexivity | rewrite Hdb; reflexivity].
Defined.

(* ===================================================================== *)
(** ** [ensure_schema] and [main] *)
(* ===================================================================== *)

(** X12: [ensure_schema] never touches a table that exists: its
    declaration and rows stay as they were, whether the connection opens
    or not.  Once it has succeeded the table exists, and calling it again,
    in any environment, changes nothing in the database.  On a database
    without the table, a successful call creates it empty and without the
    unique key. *)
Theorem X12_ensure_schema_idempotent_and_harmless (E E' : env) (w : world) :
  (forall t, db w = Some t -> db (snd (Script.ensure_schema E w)) = Some t)
  /\ (forall u, fst (Script.ensure_schema E w) = Ok u ->
        has_table (snd (Script.ensure_schema E w))
        /\ db (snd (Script.ensure_schema E' (snd (Script.ensure_schema E w))))
           = db (snd (Script.ensure_schema E w))
        /\ (db w = None ->
            db (snd (Script.ensure_schema E w))
            = Some {| natural_key_unique := false; rows := [] |}))
  /\ (forall e, fst (Script.ensure_schema E w) = Raise e ->
        db (snd (Script.ensure_schema E w)) = db w).
Proof.
  unfold Script.ensure_schema, get_db_connection, has_table.
  destruct (db_connect E (connects w)) as [u0|e0]; cbn [fst snd db set_db logging connects].
  - split; [intros t ->; reflexivity|]. split; [|discriminate].
    intros u _. destruct (db_connect E' (S (connects w))); cbn [snd db set_db logging].
    + destruct (db w) as [t|]; cbn; repeat split; try discriminate; auto.
    + destruct (db w) as [t|]; cbn; repeat split; try discriminate; auto.
  - split; [auto|]. split; [discriminate | auto].
Qed.

Lemma X12_ensure_schema_idempotent_and_harmless_witness :
  db (snd (Script.ensure_schema Sample.offline (Sample.keyed [Sample.row1])))
    = Some {| natural_key_unique := true; rows := [Sample.row1] |}
  /\ db (snd (Script.ensure_schema Sample.offline Sample.fresh))
     = Some {| natural_key_unique := false; rows := [] |}.
Proof.
  destruct (X12_ensure_schema_idempotent_and_harmless Sample.offline Sample.offline
              (Sample.keyed [Sample.row1])) as (H1 & _).
  destruct (X12_ensure_schema_idempotent_and_harmless Sample.offline Sample.offline
              Sample.fresh) as (_ & H2 & _).
  split; [apply H1; reflexivity|].
  destruct (H2 tt eq_refl) as (_ & _ & H3). apply H3. reflexivity.
Defined.

Lemma extend_extend (d : database) (a b : list row) :
  extend (extend d a) b = extend d (a ++ b).
Proof.
  destruct d as [[u rs]|]; [|reflexivity]. cbn. now rewrite app_assoc.
Qed.

(** The station loop only adds rows, no more than the total it counts. *)
Lemma collect_all_appends (E : env) (stations : list string) :
  forall w,
    exists new,
      db (snd (Script.collect_all E stations 0 [] w)) = extend (db w) new
      /\ Z.of_nat (List.length new)
         <= total_inserted (snd (fst (Script.collect_all E stations 0 [] w))).
Proof.
  induction stations as [|s rest IH]; intros w.
  - exists []. cbn. rewrite extend_nil. split; [reflexivity | lia].
  - rewrite collect_all_cons. cbn [fst snd].
    destruct (collect_station_appends E s w) as (new1 & H1 & L1).
    destruct (IH (snd (Script.collect_station E s w))) as (new2 & H2 & L2).
    exists (new1 ++ new2)%list. rewrite H2, H1, extend_extend.
    split; [reflexivity|]. rewrite length_app.
    cbn [total_inserted fold_right]. fold (total_inserted
      (snd (fst (Script.collect_all E rest 0 [] (snd (Script.collect_station E s w)))))).
    lia.
Qed.

(** The statistics block reads: it leaves the database, and adds to the
    log at its end only. *)
Lemma report_stats_reads (E : env) (w : world) :
  db (snd (Script.report_stats E w)) = db w
  /\ exists l, log (snd (Script.report_stats E w)) = (log w ++ l)%list.
Proof.
  unfold Script.report_stats, get_db_connection.
  destruct (db_connect E (connects w)); cbn [db log snd].
  - destruct (Script.select_stats (db w)) as [[[n s] m]|]; cbn [snd db log].
    + destruct (negb (n =? 0)); cbn.
      * split; [reflexivity|]. rewrite <- app_assoc. eexists. reflexivity.
      * split; [reflexivity|]. exists []. now rewrite app_nil_r.
    + split; [reflexivity|]. exists []. now rewrite app_nil_r.
  - split; [reflexivity|]. exists []. now rewrite app_nil_r.
Qed.

(** [main] after a bootstrap that succeeded, in terms of its parts. *)
Lemma main_after_bootstrap (E : env) (w : world) (u : unit) :
  db_connect E (connects w) = Ok u ->
  exists w1 w4 l,
    db w1 = create_if_not_exists (db w)
    /\ snd (fst (Script.main E w)) = snd (fst (Script.collect_all E Script.STATIONS 0 [] w1))
    /\ db w4 = db (snd (Script.collect_all E Script.STATIONS 0 [] w1))
    /\ log w4
       = (log (snd (Script.collect_all E Script.STATIONS 0 [] w1))
            ++ [(INFO, MRule);
                (INFO, MTotal (total_inserted
                   (snd (fst (Script.collect_all E Script.STATIONS 0 [] w1)))))]
            ++ l)%list
    /\ (snd (Script.main E w) = w4
        \/ exists e, snd (Script.main E w) = logging ERROR (MCollectionFailed e) w4).
Proof.
  intros Hc. unfold Script.main, Script.ensure_schema, get_db_connection.
  cbn [logging connects db]. rewrite Hc.
  set (w1 := logging INFO MSchemaReady _).
  rewrite (collect_all_acc E Script.STATIONS 0 [] w1). cbn [app].
  rewrite Z.add_0_l, collect_all_total.
  set (X := Script.collect_all E Script.STATIONS 0 [] w1).
  set (w3 := logging INFO (MTotal _) _).
  destruct (report_stats_reads E w3) as (Hdb & l & Hl).
  exists w1, (snd (Script.report_stats E w3)), l.
  split; [reflexivity|].
  destruct (Script.report_stats E w3) as [[v|e] w4]; cbn [fst snd] in *.
  - split; [reflexivity|]. split; [exact Hdb|]. split; [|now left].
    rewrite Hl. subst w3. cbn [logging log]. now rewrite <- !app_assoc.
  - split; [reflexivity|]. split; [exact Hdb|]. split; [|right; eauto].
    rewrite Hl. subst w3. cbn [logging log]. now rewrite <- !app_assoc.
Qed.

(** X13: a run of [main] only adds rows.  A table that exists keeps its
    declaration and the rows it held, whatever the stations answered and
    whatever the exit code; the rows added are no more than the sum of the
    counts the stations returned. *)
Theorem X13_main_only_appends (E : env) (w : world) (t : table)
    (Htable : db w = Some t) :
  exists new,
    db (snd (Script.main E w)) = extend (db w) new
    /\ Z.of_nat (List.length new) <= total_inserted (snd (fst (Script.main E w))).
Proof.
  destruct (db_connect E (connects w)) as [u|e] eqn:Hc.
  - destruct (main_after_bootstrap E w u Hc) as (w1 & w4 & l & H1 & Hrs & H4 & _ & Hend).
    destruct (collect_all_appends E Script.STATIONS w1) as (new & Hn & Hl).
    exists new. rewrite Hrs. split; [|exact Hl].
    assert (Hdb : db (snd (Script.main E w)) = db w4).
    { destruct Hend as [-> | [e ->]]; reflexivity. }
    rewrite Hdb, H4, Hn, H1, Htable. reflexivity.
  - exists []. rewrite extend_nil.
    unfold Script.main, Script.ensure_schema, get_db_connection.
    cbn [logging connects db]. rewrite Hc. cbn. split; [reflexivity | lia].
Qed.

Lemma X13_main_only_appends_witness :
  exists new,
    db (snd (Script.main Sample.one_down (Sample.keyed [Sample.row2])))
      = Some {| natural_key_unique := true; rows := Sample.row2 :: new |}
    /\ Z.of_nat (List.length new)
       <= total_inserted (snd (fst (Script.main Sample.one_down (Sample.keyed [Sample.row2])))).
Proof.
  destruct (X13_main_only_appends Sample.one_down (Sample.keyed [Sample.row2])
              {| natural_key_unique := true; rows := [Sample.row2] |} eq_refl)
    as (new & Hdb & Hl).
  exists new. split; [rewrite Hdb; reflexivity | exact Hl].
Defined.

(** X14: when the bootstrap connection opens, [main] logs the total once
    the loop is done, and the total logged is the sum of the counts the
    stations returned; the line is there whether the statistics block
    succeeds or not. *)
Theorem X14_main_logs_sum_of_station_counts (E : env) (w : world) (u : unit)
    (Hboot : db_connect E (connects w) = Ok u) :
  In (INFO, MTotal (total_inserted (snd (fst (Script.main E w)))))
     (log (snd (Script.main E w))).
Proof.
  destruct (main_after_bootstrap E w u Hboot) as (w1 & w4 & l & _ & Hrs & _ & Hlog & Hend).
  rewrite Hrs.
  assert (Hin : In (INFO, MTotal (total_inserted
                      (snd (fst (Script.collect_all E Script.STATIONS 0 [] w1)))))
                   (log w4)).
  { rewrite Hlog. apply in_or_app. right. apply in_or_app. left. right. now left. }
  destruct Hend as [-> | [e ->]]; [exact Hin|].
  cbn [logging log]. apply in_or_app. now left.
Qed.

Lemma X14_main_logs_sum_of_station_counts_witness :
  In (INFO, MTotal 3) (log (snd (Script.main Sample.one_down Sample.fresh))).
Proof.
  exact (X14_main_logs_sum_of_station_counts Sample.one_down Sample.fresh tt eq_refl).
Defined.

(* ===================================================================== *)
(** ** A liveboard whose departures are not a list *)
(* ===================================================================== *)

Lemma try_insert_string_item (d : database) (name : json) (cat : Z) (k : string) (x : txn) :
  try_insert d name cat (JStr k) x = (Raise AttributeError, x).
Proof. reflexivity. Qed.

Lemma script_loop_string_items (d : database) (name : json) (cat : Z) :
  forall (ks : list string) (n : Z) (lg : list entry),
    exists lg', Script.insert_loop d name cat (map JStr ks) begin n lg = (begin, n, lg').
Proof.
  induction ks as [|k ks IH]; intros n lg; [now exists lg|].
  cbn [map Script.insert_loop]. rewrite try_insert_string_item.
  cbn [is_integrity_error rollback]. apply IH.
Qed.

Lemma dag_loop_string_items (d : database) (name : json) (cat : Z) :
  forall (ks : list string) (x : txn) (n : Z) (lg : list entry),
    exists lg', Dag.insert_loop d name cat (map JStr ks) x n lg = (x, n, lg').
Proof.
  induction ks as [|k ks IH]; intros x n lg; [now exists lg|].
  cbn [map Dag.insert_loop]. rewrite try_insert_string_item. apply IH.
Qed.

Lemma commit_begin (d : database) : commit d begin = d.
Proof. rewrite commit_extend. apply extend_nil. Qed.

(** X15: when [departure] in the response is one object instead of a list
    of objects, the loop runs over the object's keys, every one of which
    raises at [dep.get]: both collectors insert nothing, return 0 and leave
    the table as it was. *)
Theorem X15_single_object_departure_stores_nothing
    (E : env) (station : string) (w : world) (data : json) (cat : Z) (name : json)
    (kvs : list (string * json))
    (Hget : http_get E station = Ok data)
    (Hparse : parse_response station data = Ok (JObj kvs, cat, name)) :
  inserted (fst (Script.collect_station E station w)) = 0
  /\ db (snd (Script.collect_station E station w)) = db w
  /\ (forall r, fst (Dag.fetch_and_store_liveboard E station w) = Ok r -> inserted r = 0)
  /\ db (snd (Dag.fetch_and_store_liveboard E station w)) = db w.
Proof.
  assert (Hk : map (fun kv : string * json => JStr (fst kv)) kvs = map JStr (map fst kvs)).
  { now rewrite map_map. }
  unfold Script.collect_station, Script.collect_body,
    Dag.fetch_and_store_liveboard, Dag.fetch_body, get_db_connection.
  rewrite Hget. cbn [bind]. rewrite Hparse.
  destruct (negb (truthy (JObj kvs))).
  { cbn. repeat split. intros r Hr. now injection Hr as <-. }
  cbn [logging connects db py_iter]. rewrite Hk.
  destruct (db_connect E (connects w)) as [u|e].
  - destruct (script_loop_string_items (db w) name cat (map fst kvs) 0 []) as [lg1 ->].
    destruct (dag_loop_string_items (db w) name cat (map fst kvs) begin 0 []) as [lg2 ->].
    cbn. rewrite commit_begin. repeat split. intros r Hr. now injection Hr as <-.
  - destruct e; cbn; repeat split; intros r Hr; discriminate Hr.
Qed.

Lemma X15_single_object_departure_stores_nothing_witness :
  let E := {| http_get := fun _ =>
                Ok (JObj [("departures", JObj [("departure", Sample.ic1)]);
                          ("timestamp", JStr "1700000100")]);
              db_connect := fun _ => Ok tt |} in
  let w := Sample.keyed [Sample.row2] in
  inserted (fst (Script.collect_station E "Brussels-Central" w)) = 0
  /\ db (snd (Script.collect_station E "Brussels-Central" w)) = db w
  /\ db (snd (Dag.fetch_and_store_liveboard E "Brussels-Central" w)) = db w.
Proof.
  intros E w.
  destruct (X15_single_object_departure_stores_nothing E "Brussels-Central" w
              (JObj [("departures", JObj [("departure", Sample.ic1)]);
                     ("timestamp", JStr "1700000100")])
              1700000100 (JStr "Brussels-Central")
              [("vehicle", JStr "BE.NMBS.IC1"); ("platform", JStr "4");
               ("time", JStr "1700000000"); ("delay", JStr "60");
               ("canceled", JStr "0"); ("station", JStr "Oostende")]
              eq_refl eq_refl) as (H1 & H2 & _ & H4).
  auto.
Defined.

(* ===================================================================== *)
(** ** Task ids and the collection summary *)
(* ===================================================================== *)

Lemma to_lower_shape (c : ascii) :
  not_upper (to_lower c) = true
  /\ (not_hyphen c = true -> not_hyphen (to_lower c) = true).
Proof. destruct c as [[] [] [] [] [] [] [] []]; split; reflexivity || discriminate. Qed.

Lemma lower_shape (s : string) :
  String.length (lower s) = String.length s
  /\ all_chars not_upper (lower s) = true
  /\ (all_chars not_hyphen s = true -> all_chars not_hyphen (lower s) = true).
Proof.
  induction s as [|c s (IHl & IHu & IHh)]; [repeat split|].
  cbn [lower String.length all_chars].
  destruct (to_lower_shape c) as [Hu Hh]. rewrite IHl, Hu, IHu.
  repeat split. intros H. apply andb_true_iff in H. destruct H as [Hc Hs].
  now rewrite (Hh Hc), (IHh Hs).
Qed.

Lemma replace_hyphen_shape (s : string) :
  String.length (str_replace "-" "_" s) = String.length s
  /\ all_chars not_hyphen (str_replace "-" "_" s) = true.
Proof.
  unfold str_replace. induction s as [|c s [IHl IHh]]; [split; reflexivity|].
  cbn [replace_from String.prefix String.length Nat.pred].
  destruct (ascii_dec "-" c) as [<- | Hc].
  - assert (Hp : String.prefix "" s = true) by (destruct s; reflexivity).
    rewrite Hp. cbn [append String.length all_chars]. rewrite IHl, IHh. split; reflexivity.
  - cbn [String.length all_chars]. rewrite IHl, IHh. split; [reflexivity|].
    unfold not_hyphen. destruct (Ascii.eqb_spec c "-") as [-> | _]; [contradiction | reflexivity].
Qed.

(** X16: the task id of a station is [collect_] followed by a name that
    holds no hyphen and no upper-case letter A to Z, whatever the station
    name is. *)
Theorem X16_task_id_shape (station : string) :
  exists t,
    Dag.task_id station = "collect_" ++ t
    /\ all_chars not_hyphen t = true
    /\ all_chars not_upper t = true.
Proof.
  exists (lower (str_replace "-" "_" station)).
  destruct (lower_shape (str_replace "-" "_" station)) as (_ & Hu & Hh).
  destruct (replace_hyphen_shape station) as (_ & Rh).
  split; [reflexivity|]. split; [now apply Hh | exact Hu].
Qed.

Lemma xcom_pull_app (X Y : Dag.xcoms) (task key : string) :
  Dag.xcom_pull (X ++ Y)%list task key
  = match Dag.xcom_pull Y task key with
    | Some v => Some v
    | None => Dag.xcom_pull X task key
    end.
Proof.
  induction X as [|[[t k] v] X IH]; cbn [app Dag.xcom_pull].
  - destruct (Dag.xcom_pull Y task key); reflexivity.
  - rewrite IH. destruct (Dag.xcom_pull Y task key); reflexivity.
Qed.

Lemma skipn_length_app {A : Type} (l l' : list A) :
  skipn (List.length l) (l ++ l')%list = l'.
Proof. induction l as [|a l IH]; [reflexivity | exact IH]. Qed.

(** What a collection task adds to the XCom rows: one row under its own
    task id, worth the count it returned, or nothing, and then its outcome
    counts for 0. *)
Lemma run_task_rows (E : env) (station : string) (w : world) (X : Dag.xcoms) :
  exists P,
    snd (snd (Dag.run_task E station (w, X))) = (X ++ P)%list
    /\ (forall task, task <> Dag.task_id station ->
          Dag.xcom_pull P task "departures_count" = None)
    /\ Dag.or_zero (Dag.xcom_pull P (Dag.task_id station) "departures_count")
       = counted (fst (Dag.run_task E station (w, X))).
Proof.
  unfold Dag.run_task.
  destruct (dag_station_cases E station w)
    as [([e He] & _ & Hx) | [(H0 & _ & Hx) | (cat & name & deps & x & n & lg & _ & _ & H1 & _ & Hx)]];
    destruct (Dag.fetch_and_store_liveboard E station w) as [r w'];
    cbn [fst snd] in *; subst r.
  - rewrite Hx, skipn_all. exists []. cbn. repeat split.
  - rewrite Hx, skipn_all. exists []. cbn. repeat split.
  - rewrite Hx, skipn_length_app. cbn [map fst snd].
    exists [(Dag.task_id station, "departures_count", n)]. split; [reflexivity|].
    split.
    + intros task Ht. cbn [Dag.xcom_pull].
      destruct (String.eqb_spec (Dag.task_id station) task) as [Heq|]; [congruence|].
      reflexivity.
    + cbn [Dag.xcom_pull]. rewrite !String.eqb_refl. reflexivity.
Qed.

Lemma run_tasks_cons (E : env) (s : string) (rest : list string) (st : world * Dag.xcoms) :
  Dag.run_tasks E (s :: rest) st
  = (fst (Dag.run_task E s st) :: fst (Dag.run_tasks E rest (snd (Dag.run_task E s st))),
     snd (Dag.run_tasks E rest (snd (Dag.run_task E s st)))).
Proof.
  cbn [Dag.run_tasks]. destruct (Dag.run_task E s st) as [r st']. cbn [fst snd].
  destruct (Dag.run_tasks E rest st') as [rs st'']. reflexivity.
Qed.

(** The rows the tasks of a list add: none under another task's id. *)
Lemma run_tasks_rows (E : env) (stations : list string) :
  forall (w : world) (X : Dag.xcoms),
    exists Y,
      snd (snd (Dag.run_tasks E stations (w, X))) = (X ++ Y)%list
      /\ (forall task, ~ In task (map Dag.task_id stations) ->
            Dag.xcom_pull Y task "departures_count" = None)
      /\ (NoDup (map Dag.task_id stations) ->
          forall total,
            Dag.summary_loop Y stations total
            = total + sum_counted (fst (Dag.run_tasks E stations (w, X)))).
Proof.
  induction stations as [|s rest IH]; intros w X.
  - exists []. cbn. rewrite app_nil_r. repeat split. intros _ total. lia.
  - rewrite run_tasks_cons. cbn [fst snd].
    destruct (run_task_rows E s w X) as (P & HP & Hother & Hown).
    destruct (Dag.run_task E s (w, X)) as [r [w1 X1]]. cbn [fst snd] in *. subst X1.
    destruct (IH w1 (X ++ P)%list) as (Y & HY & Hnone & Hsum).
    exists (P ++ Y)%list. split; [now rewrite HY, app_assoc|]. split.
    + intros task Hn. cbn [map In] in Hn. rewrite xcom_pull_app.
      rewrite Hnone by tauto. apply Hother. intros ->. tauto.
    + intros Hnd total. cbn [map] in Hnd. apply NoDup_cons_iff in Hnd.
      destruct Hnd as [Hnotin Hnd]. cbn [Dag.summary_loop].
      rewrite xcom_pull_app, (Hnone _ Hnotin), Hown.
      transitivity (Dag.summary_loop Y rest (total + counted r));
        [|rewrite (Hsum Hnd); unfold sum_counted; cbn [fold_right]; lia].
      clear - Hother Hnotin. revert Hnotin. generalize (total + counted r).
      induction rest as [|s' rest IHr]; intros z Hnotin; [reflexivity|].
      cbn [Dag.summary_loop]. rewrite xcom_pull_app.
      cbn [map In] in Hnotin.
      rewrite (Hother (Dag.task_id s')) by (intros Heq; apply Hnotin; left; now symmetry).
      assert (Hsame : forall o : option Z,
                 match o with Some v => Some v | None => None end = o)
        by (intros [v|]; reflexivity).
      rewrite Hsame. apply IHr. tauto.
Qed.

(** X17: when the four collection tasks have run, one after the other and
    each once, the total [log_collection_summary] returns and logs is the
    sum of the counts the tasks returned: a task that raised counts 0, and
    so does a task that found no departures and pushed nothing. *)
Theorem X17_summary_is_sum_of_task_counts (E : env) (w : world) :
  fst (Dag.log_collection_summary (snd (snd (Dag.run_tasks E Dag.STATIONS (w, [])))))
    = sum_counted (fst (Dag.run_tasks E Dag.STATIONS (w, [])))
  /\ snd (Dag.log_collection_summary (snd (snd (Dag.run_tasks E Dag.STATIONS (w, [])))))
     = (INFO, Dag.MCollectionSummary
                (sum_counted (fst (Dag.run_tasks E Dag.STATIONS (w, []))))).
Proof.
  destruct (run_tasks_rows E Dag.STATIONS w []) as (Y & HY & _ & Hsum).
  assert (Hnd : NoDup (map Dag.task_id Dag.STATIONS)).
  { repeat constructor; cbn; intuition discriminate. }
  unfold Dag.xcoms in *.
  rewrite HY. cbn [app]. unfold Dag.log_collection_summary. cbn [fst snd].
  rewrite (Hsum Hnd 0). split; reflexivity.
Qed.

(* ===================================================================== *)
(** ** The rows of one collection *)
(* ===================================================================== *)

Lemma insert_params_header (name : json) (cat : Z) (dep : json) (p : params) :
  insert_params name cat dep = Ok p ->
  p_station p = name /\ p_collected_at p = cat.
Proof.
  unfold insert_params.
  destruct (train_id_of dep); cbn [bind]; [|discriminate].
  destruct (dict_get dep "vehicle" (JStr "")); cbn [bind]; [|discriminate].
  destruct (dict_get dep "platform" (JStr "")); cbn [bind]; [|discriminate].
  destruct (dict_get dep "time" (JInt 0)) as [t0|]; cbn [bind]; [|discriminate].
  destruct (py_int t0); cbn [bind]; [|discriminate].
  destruct (dict_get dep "delay" (JInt 0)) as [d0|]; cbn [bind]; [|discriminate].
  destruct (py_int d0); cbn [bind]; [|discriminate].
  destruct (dict_get dep "canceled" (JInt 0)) as [c0|]; cbn [bind]; [|discriminate].
  destruct (py_int c0); cbn [bind]; [|discriminate].
  destruct (dict_get dep "station" (JStr "")); cbn [bind]; [|discriminate].
  intros H. injection H as <-. split; reflexivity.
Qed.

Lemma row_of_header (name : json) (cat : Z) (dep : json) (r : row) :
  row_of name cat dep = Ok r -> row_from name cat r.
Proof.
  unfold row_of, row_from, stored_station.
  destruct (insert_params name cat dep) as [p|] eqn:Hp; cbn [bind]; [|discriminate].
  destruct (insert_params_header name cat dep p Hp) as [Hs Hc].
  unfold adapt. rewrite Hs.
  destruct (adapt_text name) as [st|]; cbn [bind]; [|discriminate].
  destruct (adapt_str (p_train_id p)) as [ti|]; cbn [bind]; [|discriminate].
  destruct (adapt_text (p_vehicle p)) as [ve|]; cbn [bind]; [|discriminate].
  destruct (adapt_text (p_platform p)) as [pl|]; cbn [bind]; [|discriminate].
  destruct (adapt_text (p_destination p)) as [de|]; cbn [bind]; [|discriminate].
  unfold coerce.
  destruct (varchar 100 st) as [st'|]; cbn [bind]; [|discriminate].
  destruct (varchar 50 (Some ti)) as [ti'|]; cbn [bind]; [|discriminate].
  destruct (varchar 50 ve) as [ve'|]; cbn [bind]; [|discriminate].
  destruct (varchar 10 pl) as [pl'|]; cbn [bind]; [|discriminate].
  destruct (to_timestamp (p_time p)) as [tm'|]; cbn [bind]; [|discriminate].
  destruct (int4 (p_delay p)) as [dl'|]; cbn [bind]; [|discriminate].
  destruct (varchar 100 de) as [de'|]; cbn [bind]; [|discriminate].
  destruct st' as [s|]; cbn [not_null bind]; [|discriminate].
  destruct ti' as [t|]; cbn [not_null bind]; [|discriminate].
  intros H. injection H as <-. cbn. auto.
Qed.

Lemma script_loop_rows_from (d : database) (name : json) (cat : Z) :
  forall (deps : list json) (x x' : txn) (n n' : Z) (lg lg' : list entry),
    Forall (row_from name cat) (pending x) ->
    Script.insert_loop d name cat deps x n lg = (x', n', lg') ->
    Forall (row_from name cat) (pending x').
Proof.
  induction deps as [|dep deps IH]; intros x x' n n' lg lg' Hp H.
  - cbn in H. now injection H as <- _ _.
  - cbn [Script.insert_loop] in H.
    destruct (try_insert d name cat dep x) as [[u|e] x1] eqn:Ht.
    + destruct (try_insert_ok_inv _ _ _ _ _ _ _ Ht) as (t & r & _ & Hr & _ & _ & ->).
      apply (IH _ _ _ _ _ _) in H; [exact H|]. cbn [pending].
      apply Forall_app. split; [exact Hp|]. constructor; [|constructor].
      now apply row_of_header with dep.
    + destruct (is_integrity_error e);
        (apply (IH _ _ _ _ _ _) in H; [exact H | constructor]).
Qed.

Lemma dag_loop_rows_from (d : database) (name : json) (cat : Z) :
  forall (deps : list json) (x x' : txn) (n n' : Z) (lg lg' : list entry),
    Forall (row_from name cat) (pending x) ->
    Dag.insert_loop d name cat deps x n lg = (x', n', lg') ->
    Forall (row_from name cat) (pending x').
Proof.
  induction deps as [|dep deps IH]; intros x x' n n' lg lg' Hp H.
  - cbn in H. now injection H as <- _ _.
  - cbn [Dag.insert_loop] in H.
    destruct (try_insert d name cat dep x) as [[u|e] x1] eqn:Ht.
    + destruct (try_insert_ok_inv _ _ _ _ _ _ _ Ht) as (t & r & _ & Hr & _ & _ & ->).
      apply (IH _ _ _ _ _ _) in H; [exact H|]. cbn [pending].
      apply Forall_app. split; [exact Hp|]. constructor; [|constructor].
      now apply row_of_header with dep.
    + destruct (try_insert_raise_inv _ _ _ _ _ _ _ Ht) as [Hpe _].
      apply (IH _ _ _ _ _ _) in H; [exact H|]. now rewrite Hpe.
Qed.

(** X18: the rows one collection adds all carry the one collection time
    read off the response, which lies in the range of [datetime], and the
    one station name of the response as the column stores it; so any two of
    them agree on [collected_at] and on [station].  This holds for the
    script and for the DAG task, whatever the departures are. *)
Theorem X18_rows_of_one_collection_share_header
    (E : env) (station : string) (w : world) (data departures : json)
    (cat : Z) (name : json)
    (Hget : http_get E station = Ok data)
    (Hparse : parse_response station data = Ok (departures, cat, name)) :
  datetime_min <= cat <= datetime_max
  /\ (exists new,
        db (snd (Script.collect_station E station w)) = extend (db w) new
        /\ Forall (row_from name cat) new)
  /\ (exists new,
        db (snd (Dag.fetch_and_store_liveboard E station w)) = extend (db w) new
        /\ Forall (row_from name cat) new)
  /\ forall r1 r2, row_from name cat r1 -> row_from name cat r2 ->
       collected_at r1 = collected_at r2 /\ Pg.station r1 = Pg.station r2.
Proof.
  split.
  { unfold parse_response in Hparse.
    destruct (raw_departures data); cbn [bind] in Hparse; [|discriminate].
    destruct (response_epoch data) as [z|]; cbn [bind] in Hparse; [|discriminate].
    unfold fromtimestamp in Hparse.
    destruct ((datetime_min <=? z) && (z <=? datetime_max)) eqn:Hb.
    - cbn [bind] in Hparse.
      destruct (display_name station data); cbn [bind] in Hparse; [|discriminate].
      injection Hparse as _ <- _. apply andb_true_iff in Hb. lia.
    - destruct (negb ((- 2 ^ 63 <=? z) && (z <? 2 ^ 63))); [discriminate|].
      destruct (negb ((localtime_min <=? z) && (z <=? localtime_max))); discriminate. }
  split; [|split].
  - unfold Script.collect_station, Script.collect_body, get_db_connection.
    rewrite Hget. cbn [bind]. rewrite Hparse.
    destruct (negb (truthy departures)).
    { exists []. cbn. rewrite extend_nil. auto. }
    destruct (db_connect E (connects w)).
    2:{ exists []. cbn. rewrite extend_nil. auto. }
    destruct (py_iter departures) as [deps|].
    2:{ exists []. cbn. rewrite extend_nil. auto. }
    cbn [db].
    destruct (Script.insert_loop (db w) name cat deps begin 0 []) as [[x n] lg] eqn:Hl.
    cbn. rewrite commit_extend. eexists. split; [reflexivity|].
    destruct (aborted x); [constructor|].
    eapply script_loop_rows_from; [|exact Hl]. constructor.
  - unfold Dag.fetch_and_store_liveboard, Dag.fetch_body, get_db_connection.
    rewrite Hget. cbn [bind]. rewrite Hparse.
    destruct (negb (truthy departures)).
    { exists []. cbn. rewrite extend_nil. auto. }
    cbn [logging connects db].
    destruct (db_connect E (connects w)) as [u|e].
    2:{ exists []. destruct e; cbn; rewrite extend_nil; auto. }
    destruct (py_iter departures) as [deps|e].
    2:{ exists []. destruct e; cbn; rewrite extend_nil; auto. }
    destruct (Dag.insert_loop (db w) name cat deps begin 0 []) as [[x n] lg] eqn:Hl.
    cbn. rewrite commit_extend. eexists. split; [reflexivity|].
    destruct (aborted x); [constructor|].
    eapply dag_loop_rows_from; [|exact Hl]. constructor.
  - intros r1 r2 [C1 S1] [C2 S2]. split; [congruence|].
    rewrite S1 in S2. now injection S2.
Qed.

Lemma X18_rows_of_one_collection_share_header_witness :
  let E := Sample.serving [Sample.ic1; Sample.ic2] in
  exists new,
    db (snd (Script.collect_station E "Brussels-Central" (Sample.keyed [])))
      = extend (db (Sample.keyed [])) new
    /\ Forall (row_from (JStr "Brussels-Central") 1700000100) new.
Proof.
  intros E.
  destruct (X18_rows_of_one_collection_share_header E "Brussels-Central"
              (Sample.keyed []) (Sample.liveboard [Sample.ic1; Sample.ic2])
              (JArr [Sample.ic1; Sample.ic2]) 1700000100 (JStr "Brussels-Central")
              eq_refl eq_refl) as (_ & H & _).
  exact H.
Defined.

(** X19: a run of [main] opens one connection when the schema bootstrap
    fails, and otherwise between two and six: one for the bootstrap, at
    most one per station, one for the statistics. *)
Theorem X19_main_connection_count (E : env) (w : world) :
  match db_connect E (connects w) with
  | Raise _ => connects (snd (Script.main E w)) = S (connects w)
  | Ok _ =>
      (connects w + 2 <= connects (snd (Script.main E w)) <= connects w + 6)%nat
  end.
Proof.
  unfold Script.main, Script.ensure_schema, get_db_connection.
  cbn [logging connects db].
  destruct (db_connect E (connects w)) as [u|e]; [|reflexivity].
  set (w1 := logging INFO MSchemaReady _).
  rewrite (collect_all_acc E Script.STATIONS 0 [] w1). cbn [app].
  destruct (collect_all_store E Script.STATIONS w1) as (_ & k & Hk & Hc).
  set (X := Script.collect_all E Script.STATIONS 0 [] w1) in *.
  set (w3 := logging INFO (MTotal _) _).
  assert (H3 : connects w3 = (S (connects w) + k)%nat).
  { change (connects w3) with (connects (snd X)). rewrite Hc. reflexivity. }
  assert (H4 : connects (snd (Script.report_stats E w3)) = S (connects w3)).
  { unfold Script.report_stats, get_db_connection.
    destruct (db_connect E (connects w3)); [|reflexivity]. cbn [db].
    destruct (Script.select_stats (db w3)) as [[[n s] m]|]; [|reflexivity].
    destruct (negb (n =? 0)); reflexivity. }
  cbn [List.length Script.STATIONS] in Hk.
  destruct (Script.report_stats E w3) as [[v|e] w4]; cbn [snd logging connects] in *; lia.
Qed.

(* ===================================================================== *)
(** ** Batches both collectors treat alike *)
(* ===================================================================== *)

Lemma try_insert_accepts_fresh (t : table) (name : json) (cat : Z) (dep : json)
    (x : txn) (r : row) :
  aborted x = false ->
  row_of name cat dep = Ok r ->
  (natural_key_unique t && existsb (same_key r) (visible t x)) = false ->
  try_insert (Some t) name cat dep x
  = (Ok tt, {| pending := pending x ++ [r]; aborted := false |}).
Proof.
  intros Ha. unfold row_of, try_insert, execute_insert.
  destruct (insert_params name cat dep) as [p|]; cbn [bind]; [|discriminate].
  destruct (adapt p) as [[[[[st ti] ve] pl] de]|]; cbn [bind]; [|discriminate].
  intros -> Hk. rewrite Ha, Hk. reflexivity.
Qed.

Lemma insert_loops_accept_fresh (t : table) (name : json) (cat : Z) :
  forall (deps : list json) (rs : list row) (x : txn) (n : Z) (lg : list entry),
    aborted x = false ->
    map (row_of name cat) deps = map Ok rs ->
    (negb (natural_key_unique t) || fresh_keys (visible t x) rs) = true ->
    Script.insert_loop (Some t) name cat deps x n lg
      = ({| pending := pending x ++ rs; aborted := false |},
         n + Z.of_nat (List.length deps), lg)
    /\ Dag.insert_loop (Some t) name cat deps x n lg
      = ({| pending := pending x ++ rs; aborted := false |},
         n + Z.of_nat (List.length deps), lg).
Proof.
  induction deps as [|dep deps IH]; intros rs x n lg Ha Hm Hf.
  - destruct rs; [|discriminate]. cbn. rewrite app_nil_r, Z.add_0_r.
    destruct x as [p a]. cbn in Ha. subst a. split; reflexivity.
  - destruct rs as [|r rs]; [discriminate|]. cbn [map] in Hm.
    injection Hm as Hr Hm.
    assert (Hk : (natural_key_unique t && existsb (same_key r) (visible t x)) = false
                 /\ (negb (natural_key_unique t)
                     || fresh_keys (visible t {| pending := pending x ++ [r];
                                                 aborted := false |}) rs) = true).
    { unfold visible in *. cbn [pending fresh_keys] in *. rewrite app_assoc.
      destruct (natural_key_unique t); cbn [negb orb andb] in *; [|auto].
      apply andb_true_iff in Hf. destruct Hf as [H1 H2].
      apply negb_true_iff in H1. auto. }
    destruct Hk as [Hk Hf'].
    cbn [Script.insert_loop Dag.insert_loop].
    rewrite (try_insert_accepts_fresh t name cat dep x r Ha Hr Hk).
    destruct (IH rs {| pending := pending x ++ [r]; aborted := false |}
                 (n + 1) lg eq_refl Hm Hf') as [Hs Hd].
    rewrite Hs, Hd. cbn [pending List.length]. rewrite <- app_assoc. cbn [app].
    replace (n + 1 + Z.of_nat (List.length deps))
      with (n + Z.of_nat (S (List.length deps))) by lia.
    split; reflexivity.
Qed.

Lemma dag_loop_app (d : database) (name : json) (cat : Z) (post : list json) :
  forall (pre : list json) (x : txn) (n : Z) (lg : list entry),
    Dag.insert_loop d name cat (pre ++ post) x n lg
    = let '(x1, n1, lg1) := Dag.insert_loop d name cat pre x n lg in
      Dag.insert_loop d name cat post x1 n1 lg1.
Proof.
  induction pre as [|dep pre IH]; intros x n lg; [reflexivity|].
  cbn [app Dag.insert_loop].
  destruct (try_insert d name cat dep x) as [[u|e] x1]; apply IH.
Qed.

(** Records the driver refuses, at the head of a batch: neither loop has
    inserted or lost anything after them. *)
Lemma loops_skip_client_refused (d : database) (name : json) (cat : Z) :
  forall (skipped : list json) (n : Z) (lg : list entry),
    forallb (client_refused name cat) skipped = true ->
    (exists lg', Script.insert_loop d name cat skipped begin n lg = (begin, n, lg'))
    /\ (exists lg', Dag.insert_loop d name cat skipped begin n lg = (begin, n, lg')).
Proof.
  induction skipped as [|dep skipped IH]; intros n lg H.
  - split; exists lg; reflexivity.
  - cbn [forallb] in H. apply andb_true_iff in H. destruct H as [Hd Hr].
    cbn [Script.insert_loop Dag.insert_loop].
    destruct (try_insert_client_refused d name cat dep begin Hd) as [e ->].
    cbn [rollback]. split.
    + destruct (is_integrity_error e); apply IH; exact Hr.
    + apply IH; exact Hr.
Qed.

(** Records the store refuses one by one: the script's loop inserts none
    of them and ends with an empty transaction; the DAG's loop inserts none
    and ends with a transaction that is empty or failed. *)
Lemma loops_refuse_all (d : database) (name : json) (cat : Z) :
  forall (deps : list json) (n : Z),
    forallb (refused_alone d name cat) deps = true ->
    (forall lg, exists lg',
        Script.insert_loop d name cat deps begin n lg = (begin, n, lg'))
    /\ (forall x lg, x = begin \/ aborted x = true ->
          exists x' lg',
            Dag.insert_loop d name cat deps x n lg = (x', n, lg')
            /\ (x' = begin \/ aborted x' = true)).
Proof.
  induction deps as [|dep deps IH]; intros n H.
  - split; [intros lg; exists lg; reflexivity|].
    intros x lg Hx. exists x, lg. auto.
  - cbn [forallb] in H. apply andb_true_iff in H. destruct H as [Hd Hr].
    destruct (IH n Hr) as [IHs IHd]. unfold refused_alone in Hd.
    apply negb_true_iff in Hd. split.
    + intros lg. cbn [Script.insert_loop].
      destruct (try_insert d name cat dep begin) as [[u|e] x1]; [discriminate|].
      cbn [rollback]. destruct (is_integrity_error e); apply IHs.
    + intros x lg [-> | Ha]; cbn [Dag.insert_loop].
      * destruct (try_insert d name cat dep begin) as [[u|e] x1] eqn:Ht;
          [discriminate|].
        apply IHd. destruct (try_insert_raise_inv _ _ _ _ _ _ _ Ht) as [_ [-> | Hx]];
          auto.
      * destruct (try_insert_aborted d name cat dep x Ha) as [e ->].
        apply IHd. auto.
Qed.

Lemma row_of_all_header (name : json) (cat : Z) :
  forall (deps : list json) (rs : list row),
    map (row_of name cat) deps = map Ok rs ->
    List.length rs = List.length deps /\ Forall (row_from name cat) rs.
Proof.
  induction deps as [|dep deps IH]; intros rs H.
  - destruct rs; [|discriminate]. split; [reflexivity | constructor].
  - destruct rs as [|r rs]; [discriminate|]. cbn [map] in H. injection H as Hr Hm.
    destruct (IH rs Hm) as [Hl Hf]. cbn [List.length]. rewrite Hl.
    split; [reflexivity|]. constructor; [now apply row_of_header with dep | exact Hf].
Qed.

(** A batch of records the driver refuses followed by records the table
    takes: both collectors return the number of the latter and store their
    rows, in order. *)
Lemma collectors_take_batch
    (E : env) (station : string) (w : world) (t : table) (data : json)
    (cat : Z) (name : json) (skipped kept : list json) (rs : list row) :
  http_get E station = Ok data ->
  parse_response station data = Ok (JArr (skipped ++ kept), cat, name) ->
  db_connect E (connects w) = Ok tt ->
  db w = Some t ->
  forallb (client_refused name cat) skipped = true ->
  map (row_of name cat) kept = map Ok rs ->
  no_clash t rs = true ->
  fst (Script.collect_station E station w)
    = {| cr_station := station; inserted := Z.of_nat (List.length kept);
         attempted := List.length (skipped ++ kept) |}
  /\ fst (Dag.fetch_and_store_liveboard E station w)
    = Ok (fst (Script.collect_station E station w))
  /\ db (snd (Script.collect_station E station w))
    = Some {| natural_key_unique := natural_key_unique t; rows := rows t ++ rs |}
  /\ db (snd (Dag.fetch_and_store_liveboard E station w))
    = db (snd (Script.collect_station E station w)).
Proof.
  intros Hget Hparse Hconn Htable Hskip Hrows Hfresh.
  assert (Hf : (negb (natural_key_unique t) || fresh_keys (visible t begin) rs) = true).
  { unfold visible. cbn [pending]. rewrite app_nil_r. exact Hfresh. }
  unfold Script.collect_station, Script.collect_body,
    Dag.fetch_and_store_liveboard, Dag.fetch_body.
  rewrite Hget. cbn [bind]. rewrite Hparse.
  destruct (skipped ++ kept)%list as [|dep0 deps0] eqn:Hall.
  - apply app_eq_nil in Hall. destruct Hall as [-> ->].
    destruct rs; [|discriminate]. cbn. rewrite Htable, app_nil_r.
    destruct t as [u r]. repeat split; reflexivity.
  - cbn [truthy negb py_iter]. unfold get_db_connection.
    cbn [logging connects db]. rewrite Hconn, Htable. rewrite <- Hall.
    rewrite script_loop_app, dag_loop_app.
    destruct (loops_skip_client_refused (Some t) name cat skipped 0 [] Hskip)
      as [[lg1 ->] [lg2 ->]].
    destruct (insert_loops_accept_fresh t name cat kept rs begin 0 lg1 eq_refl Hrows Hf)
      as [-> _].
    destruct (insert_loops_accept_fresh t name cat kept rs begin 0 lg2 eq_refl Hrows Hf)
      as [_ ->].
    cbn. repeat split; reflexivity.
Qed.

(** A batch none of whose records the store takes on its own: both
    collectors return 0 and leave the table. *)
Lemma collectors_refuse_batch
    (E : env) (station : string) (w : world) (data : json)
    (cat : Z) (name : json) (deps : list json) :
  http_get E station = Ok data ->
  parse_response station data = Ok (JArr deps, cat, name) ->
  db_connect E (connects w) = Ok tt ->
  forallb (refused_alone (db w) name cat) deps = true ->
  fst (Script.collect_station E station w)
    = {| cr_station := station; inserted := 0; attempted := List.length deps |}
  /\ fst (Dag.fetch_and_store_liveboard E station w)
    = Ok (fst (Script.collect_station E station w))
  /\ db (snd (Script.collect_station E station w)) = db w
  /\ db (snd (Dag.fetch_and_store_liveboard E station w)) = db w.
Proof.
  intros Hget Hparse Hconn Href.
  unfold Script.collect_station, Script.collect_body,
    Dag.fetch_and_store_liveboard, Dag.fetch_body.
  rewrite Hget. cbn [bind]. rewrite Hparse.
  destruct deps as [|dep deps].
  - cbn. repeat split; reflexivity.
  - cbn [truthy negb py_iter]. unfold get_db_connection.
    cbn [logging connects db]. rewrite Hconn.
    destruct (loops_refuse_all (db w) name cat (dep :: deps) 0 Href) as [Hs Hd].
    destruct (Hs []) as [lg1 ->].
    destruct (Hd begin [] (or_introl eq_refl)) as (x' & lg2 & -> & Hx).
    cbn. rewrite commit_begin.
    assert (Hc : commit (db w) x' = db w).
    { rewrite commit_extend. destruct Hx as [-> | ->]; apply extend_nil. }
    rewrite Hc. repeat split; reflexivity.
Qed.

(** C9, as amended: when the request succeeds, the response parses to a
    list of departures and the connection opens, the script and the DAG
    task return the same count and leave the same rows in the table in two
    cases.  First, when the batch is records the driver refuses followed by
    records the table takes (their fields convert and fit the columns, and,
    where the table declares the natural key unique, their keys are new to
    the table and differ from one another): both return the number of the
    records taken and store their rows, repeated departures included where
    the table declares no key.  Second, when the store refuses every record
    of the batch on its own, as it does every duplicate on a keyed table:
    both return 0 and store nothing. *)
Theorem C9_collectors_agree_on_accepted_batches
    (E : env) (station : string) (w : world)
    (data : json) (cat : Z) (name : json) (deps : list json)
    (Hget : http_get E station = Ok data)
    (Hparse : parse_response station data = Ok (JArr deps, cat, name))
    (Hconn : db_connect E (connects w) = Ok tt) :
  (forall (t : table) (skipped kept : list json) (rs : list row),
      db w = Some t ->
      deps = (skipped ++ kept)%list ->
      forallb (client_refused name cat) skipped = true ->
      map (row_of name cat) kept = map Ok rs ->
      no_clash t rs = true ->
      fst (Script.collect_station E station w)
        = {| cr_station := station; inserted := Z.of_nat (List.length kept);
             attempted := List.length deps |}
      /\ fst (Dag.fetch_and_store_liveboard E station w)
        = Ok (fst (Script.collect_station E station w))
      /\ db (snd (Script.collect_station E station w))
        = Some {| natural_key_unique := natural_key_unique t; rows := rows t ++ rs |}
      /\ db (snd (Dag.fetch_and_store_liveboard E station w))
        = db (snd (Script.collect_station E station w)))
  /\ (forallb (refused_alone (db w) name cat) deps = true ->
      fst (Script.collect_station E station w)
        = {| cr_station := station; inserted := 0; attempted := List.length deps |}
      /\ fst (Dag.fetch_and_store_liveboard E station w)
        = Ok (fst (Script.collect_station E station w))
      /\ db (snd (Script.collect_station E station w)) = db w
      /\ db (snd (Dag.fetch_and_store_liveboard E station w))
        = db (snd (Script.collect_station E station w))).
Proof.
  split.
  - intros t skipped kept rs Htable -> Hskip Hrows Hfresh.
    exact (collectors_take_batch E station w t data cat name skipped kept rs
             Hget Hparse Hconn Htable Hskip Hrows Hfresh).
  - intros Href.
    destruct (collectors_refuse_batch E station w data cat name deps
                Hget Hparse Hconn Href) as (H1 & H2 & H3 & H4).
    rewrite H3, H4. auto.
Qed.

Lemma C9_collectors_agree_witness :
  (let E := Sample.serving [Sample.ic1; Sample.ic3] in
   let w := Sample.keyed [Sample.row2] in
   inserted (fst (Script.collect_station E "Brussels-Central" w)) = 2
   /\ fst (Dag.fetch_and_store_liveboard E "Brussels-Central" w)
      = Ok (fst (Script.collect_station E "Brussels-Central" w))
   /\ db (snd (Dag.fetch_and_store_liveboard E "Brussels-Central" w))
      = Some {| natural_key_unique := true;
                rows := [Sample.row2; Sample.row1; Sample.row3] |})
  /\ (let E := Sample.serving [Sample.garbled; Sample.ic1; Sample.ic1] in
      let w := snd (Script.ensure_schema E Sample.fresh) in
      inserted (fst (Script.collect_station E "Brussels-Central" w)) = 2
      /\ fst (Dag.fetch_and_store_liveboard E "Brussels-Central" w)
         = Ok (fst (Script.collect_station E "Brussels-Central" w))
      /\ db (snd (Dag.fetch_and_store_liveboard E "Brussels-Central" w))
         = Some {| natural_key_unique := false; rows := [Sample.row1; Sample.row1] |})
  /\ (let E := Sample.serving [Sample.ic1; Sample.ic2] in
      let w := Sample.keyed [Sample.row1; Sample.row2] in
      inserted (fst (Script.collect_station E "Brussels-Central" w)) = 0
      /\ fst (Dag.fetch_and_store_liveboard E "Brussels-Central" w)
         = Ok (fst (Script.collect_station E "Brussels-Central" w))
      /\ db (snd (Dag.fetch_and_store_liveboard E "Brussels-Central" w)) = db w).
Proof.
  split; [|split].
  - intros E w.
    destruct (C9_collectors_agree_on_accepted_batches E "Brussels-Central" w
                (Sample.liveboard [Sample.ic1; Sample.ic3]) 1700000100
                (JStr "Brussels-Central") [Sample.ic1; Sample.ic3]
                eq_refl eq_refl eq_refl) as [HA _].
    destruct (HA {| natural_key_unique := true; rows := [Sample.row2] |}
                [] [Sample.ic1; Sample.ic3] [Sample.row1; Sample.row3]
                eq_refl eq_refl eq_refl eq_refl eq_refl) as (H1 & H2 & H3 & H4).
    split; [rewrite H1; reflexivity|]. split; [exact H2|]. rewrite H4, H3. reflexivity.
  - intros E w.
    destruct (C9_collectors_agree_on_accepted_batches E "Brussels-Central" w
                (Sample.liveboard [Sample.garbled; Sample.ic1; Sample.ic1]) 1700000100
                (JStr "Brussels-Central") [Sample.garbled; Sample.ic1; Sample.ic1]
                eq_refl eq_refl eq_refl) as [HA _].
    destruct (HA {| natural_key_unique := false; rows := [] |}
                [Sample.garbled] [Sample.ic1; Sample.ic1] [Sample.row1; Sample.row1]
                eq_refl eq_refl eq_refl eq_refl eq_refl) as (H1 & H2 & H3 & H4).
    split; [rewrite H1; reflexivity|]. split; [exact H2|]. rewrite H4, H3. reflexivity.
  - intros E w.
    destruct (C9_collectors_agree_on_accepted_batches E "Brussels-Central" w
                (Sample.liveboard [Sample.ic1; Sample.ic2]) 1700000100
                (JStr "Brussels-Central") [Sample.ic1; Sample.ic2]
                eq_refl eq_refl eq_refl) as [_ HB].
    destruct (HB eq_refl) as (H1 & H2 & H3 & H4).
    split; [rewrite H1; reflexivity|]. split; [exact H2|]. rewrite H4, H3. reflexivity.
Defined.

(* ===================================================================== *)
(** ** One record per departure *)
(* ===================================================================== *)

Lemma response_epoch_reads (data : json) (cat : Z) :
  response_epoch data = Ok cat -> timestamp_reads data cat.
Proof.
  unfold response_epoch, timestamp_reads.
  destruct data as [| | | | |kvs]; try discriminate.
  rewrite dict_get_obj. cbn [bind].
  destruct (assoc "timestamp" kvs) as [[|b|n|s| |]|]; cbn [py_int];
    try discriminate.
  - intros H. now injection H.
  - intros H. now injection H.
  - destruct (int_of_string s); [|discriminate]. intros H. now injection H as ->.
  - intros H. now injection H.
Qed.

(** C6: on a well-formed response whose departures are a list of
    well-formed raw departures, the response parses; the collection time is
    what the response's timestamp field reads as (0 for epoch 0 and for a
    response without timestamp); every departure gives its parameter tuple,
    as many tuples as departures, in order, each with that one collection
    time and the one station name.  The insert loops of both collectors run
    over these tuples: when the connection opens and the table takes the
    rows, the script and the DAG task attempt and insert as many records as
    there are departures and store one row per departure, in order, every
    row with that collection time. *)
Theorem C6_one_record_per_departure (station : string) (data : json) (deps : list json)
    (Hresp : wf_response data = true)
    (Hraw : raw_departures data = Ok (JArr deps))
    (Hdeps : forallb wf_departure deps = true) :
  exists cat name ps,
    parse_response station data = Ok (JArr deps, cat, name)
    /\ response_epoch data = Ok cat
    /\ timestamp_reads data cat
    /\ map (insert_params name cat) deps = map Ok ps
    /\ List.length ps = List.length deps
    /\ Forall (fun p => p_collected_at p = cat /\ p_station p = name) ps
    /\ forall (E : env) (w : world) (t : table) (rs : list row),
         http_get E station = Ok data ->
         db_connect E (connects w) = Ok tt ->
         db w = Some t ->
         map (row_of name cat) deps = map Ok rs ->
         no_clash t rs = true ->
         fst (Script.collect_station E station w)
           = {| cr_station := station; inserted := Z.of_nat (List.length deps);
                attempted := List.length deps |}
         /\ fst (Dag.fetch_and_store_liveboard E station w)
           = Ok (fst (Script.collect_station E station w))
         /\ db (snd (Script.collect_station E station w))
           = Some {| natural_key_unique := natural_key_unique t; rows := rows t ++ rs |}
         /\ db (snd (Dag.fetch_and_store_liveboard E station w))
           = db (snd (Script.collect_station E station w))
         /\ List.length rs = List.length deps
         /\ Forall (fun r => collected_at r = cat) rs.
Proof.
  destruct (parse_response_ok station data Hresp) as (d & cat & name & Hp & Hr & He & _).
  rewrite Hraw in Hr. injection Hr as <-.
  destruct (insert_params_all_ok name cat deps Hdeps) as (ps & Hm & Hl & Hf).
  exists cat, name, ps.
  split; [exact Hp|]. split; [exact He|].
  split; [now apply response_epoch_reads|].
  split; [exact Hm|]. split; [exact Hl|]. split; [exact Hf|].
  intros E w t rs Hget Hconn Htable Hrows Hfresh.
  destruct (collectors_take_batch E station w t data cat name [] deps rs
              Hget Hp Hconn Htable eq_refl Hrows Hfresh) as (H1 & H2 & H3 & H4).
  destruct (row_of_all_header name cat deps rs Hrows) as [Hlen Hrf].
  split; [exact H1|]. split; [exact H2|]. split; [exact H3|]. split; [exact H4|].
  split; [exact Hlen|].
  eapply Forall_impl; [|exact Hrf]. intros r [Hc _]. exact Hc.
Qed.

Lemma C6_one_record_per_departure_witness :
  let data := Sample.at_epoch0 [Sample.ic1; Sample.ic2] in
  let E := Sample.serving_at_epoch0 [Sample.ic1; Sample.ic2] in
  let w := Sample.keyed [] in
  exists name ps rs,
    parse_response "Ghent-Sint-Pieters" data = Ok (JArr [Sample.ic1; Sample.ic2], 0, name)
    /\ map (insert_params name 0) [Sample.ic1; Sample.ic2] = map Ok ps
    /\ Forall (fun p => p_collected_at p = 0 /\ p_station p = name) ps
    /\ inserted (fst (Script.collect_station E "Ghent-Sint-Pieters" w)) = 2
    /\ fst (Dag.fetch_and_store_liveboard E "Ghent-Sint-Pieters" w)
       = Ok (fst (Script.collect_station E "Ghent-Sint-Pieters" w))
    /\ db (snd (Script.collect_station E "Ghent-Sint-Pieters" w))
       = Some {| natural_key_unique := true; rows := rs |}
    /\ List.length rs = 2%nat
    /\ Forall (fun r => collected_at r = 0) rs.
Proof.
  intros data E w.
  destruct (C6_one_record_per_departure "Ghent-Sint-Pieters" data
              [Sample.ic1; Sample.ic2] eq_refl eq_refl eq_refl)
    as (cat & name & ps & Hp & He & Ht & Hm & Hl & Hf & Hloop).
  assert (Hc : cat = 0) by exact Ht. subst cat.
  assert (Hn : name = JStr "Ghent-Sint-Pieters").
  { vm_compute in Hp. now injection Hp. }
  subst name.
  destruct (Hloop E w {| natural_key_unique := true; rows := [] |}
              (map (fun r => {| station := "Ghent-Sint-Pieters";
                                train_id := train_id r; vehicle := vehicle r;
                                platform := platform r;
                                scheduled_time := scheduled_time r;
                                delay_seconds := delay_seconds r;
                                cancelled := cancelled r;
                                destination := destination r;
                                collected_at := 0 |}) [Sample.row1; Sample.row2])
              eq_refl eq_refl eq_refl eq_refl eq_refl)
    as (H1 & H2 & H3 & H4 & H5 & H6).
  eexists _, ps, _. split; [exact Hp|]. split; [exact Hm|]. split; [exact Hf|].
  split; [rewrite H1; reflexivity|]. split; [exact H2|]. split; [exact H3|].
  split; [exact H5 | exact H6].
Defined.
